(** * run_pipeline.py: the Phase 1 pipeline runner (Intake, Risk, Review)

    A shallow embedding of [run_pipeline.py] and the proofs of its
    specification.  Python text is a sequence of Unicode code points, decoded
    JSON is a tree of Python values, a stage is a computation that appends to
    a trace of observable events (console output, Gateway calls, files
    written) and ends by returning, by [_fail] (message on the error channel,
    [sys.exit(1)]) or by an uncaught Python exception. *)

From Stdlib Require Import String Ascii DecimalString.
From Stdlib Require Import List Bool Arith ZArith NArith Lia.
Import ListNotations.

Set Implicit Arguments.

(** ** Python [str]: a sequence of code points *)

Definition pystr := list N.

(** A literal of the source, character by character (the literals written
    this way are ASCII; other characters are given by their code point). *)
Definition lit (s : string) : pystr :=
  map (fun a => N_of_ascii a) (list_ascii_of_string s).

Definition nl : pystr := [10%N].

Fixpoint str_eqb (a b : pystr) : bool :=
  match a, b with
  | [], [] => true
  | x :: a', y :: b' => N.eqb x y && str_eqb a' b'
  | _, _ => false
  end.

(** [s.startswith(p)] *)
Fixpoint startswith (p s : pystr) : bool :=
  match p, s with
  | [], _ => true
  | x :: p', y :: s' => N.eqb x y && startswith p' s'
  | _ :: _, [] => false
  end.

(** [s.endswith(p)] *)
Definition endswith (p s : pystr) : bool :=
  (length p <=? length s) && str_eqb (skipn (length s - length p) s) p.

(** [s.removeprefix(p)] *)
Definition removeprefix (p s : pystr) : pystr :=
  if startswith p s then skipn (length p) s else s.

(** [s.removesuffix(p)]: an empty suffix removes nothing. *)
Definition removesuffix (p s : pystr) : pystr :=
  match p with
  | [] => s
  | _ :: _ => if endswith p s then firstn (length s - length p) s else s
  end.

(** [str.isspace] of one character, the set [str.strip()] removes. *)
Definition isspace (c : N) : bool :=
  ((9 <=? c) && (c <=? 13) || (28 <=? c) && (c <=? 32)
   || (c =? 133) || (c =? 160) || (c =? 5760)
   || (8192 <=? c) && (c <=? 8202)
   || (c =? 8232) || (c =? 8233) || (c =? 8239) || (c =? 8287)
   || (c =? 12288))%N.

Fixpoint lstrip (s : pystr) : pystr :=
  match s with
  | [] => []
  | c :: s' => if isspace c then lstrip s' else s
  end.

Definition rstrip (s : pystr) : pystr := rev (lstrip (rev s)).

(** [s.strip()] *)
Definition strip (s : pystr) : pystr := rstrip (lstrip s).

(** [needle in hay] on two strings: substring test. *)
Fixpoint str_contains (needle hay : pystr) : bool :=
  startswith needle hay ||
  match hay with
  | [] => false
  | _ :: hay' => str_contains needle hay'
  end.

(** [sep.join(parts)] *)
Fixpoint join (sep : pystr) (parts : list pystr) : pystr :=
  match parts with
  | [] => []
  | [p] => p
  | p :: rest => p ++ sep ++ join sep rest
  end.

(** [s.replace(old, new)]: the occurrences of [old] are found from the left
    and do not overlap.  [skip] counts the characters of a match still to be
    dropped. *)
Fixpoint replace_from (old new : pystr) (skip : nat) (s : pystr) : pystr :=
  match s with
  | [] => []
  | c :: s' =>
      match skip with
      | S k => replace_from old new k s'
      | O => if startswith old s
             then new ++ replace_from old new (length old - 1) s'
             else c :: replace_from old new 0 s'
      end
  end.

Definition replace (old new s : pystr) : pystr :=
  match old with
  | [] => new ++ flat_map (fun c => c :: new) s
  | _ :: _ => replace_from old new 0 s
  end.

(** [str(n)] of a Python integer. *)
Definition str_of_Z (z : Z) : pystr := lit (NilZero.string_of_int (Z.to_int z)).

Definition hex_digit (n : N) : N :=
  (if n <? 10 then 48 + n else 87 + n)%N.

(** [format(n, '04x')] for [n < 65536], [format(n, '02x')], [format(n, '08x')]. *)
Definition hex2 (n : N) : pystr :=
  [hex_digit (n / 16 mod 16); hex_digit (n mod 16)]%N.
Definition hex4 (n : N) : pystr :=
  (hex2 (n / 256 mod 256) ++ hex2 (n mod 256))%N.
Definition hex8 (n : N) : pystr :=
  (hex4 (n / 65536 mod 65536) ++ hex4 (n mod 65536))%N.

(** ** Python values: what [json.loads] returns

    [None], [bool], [int], [float], [str], [list] and [dict].  A [dict] is
    kept as its items in insertion order (keys are strings, looked up from the
    front).  The program never computes with a [float], it only formats one:
    a float is kept as a decimal literal that denotes it and formatted by the
    runtime's [float_repr]. *)

#[warning="-register-all"]
Inductive value : Type :=
| PyNone
| PyBool (b : bool)
| PyInt (z : Z)
| PyFloat (literal : pystr)
| PyStr (s : pystr)
| PyList (items : list value)
| PyDict (members : list (pystr * value)).

(** The uncaught exceptions the operations below can raise. *)
Inductive pyexn : Type :=
| TypeError
| AttributeError
| KeyError
| ValueError
| RecursionError
| SystemExit (status : Z).

(** What [json.loads] does on a document: it returns the decoded value,
    raises [JSONDecodeError] (kept with its text, [str(e)]) or raises
    something else (a nesting too deep, an integer too long). *)
Inductive loads_result : Type :=
| Decoded (v : value)
| JSONDecodeError (text : pystr)
| LoadsRaises (e : pyexn).

(** What the program takes from the Python runtime and its libraries and
    does not define itself. *)
Record runtime : Type := {
  json_loads : pystr -> loads_result;
  (** [repr] of the float a literal denotes. *)
  float_repr : pystr -> pystr;
  (** [str.isprintable] of a non-ASCII character (Unicode database). *)
  isprintable : N -> bool;
  (** [str(Path(s))] and [Path(s).stem] (pathlib). *)
  path_str : pystr -> pystr;
  path_stem : pystr -> pystr
}.

(** How a piece of the program ends: it returns, it calls
    [_fail(message)] (which prints the message and exits with status 1), or
    an exception propagates. *)
Inductive ctl (A : Type) : Type :=
| Ret (a : A)
| Fail (message : pystr)
| Raise (e : pyexn).

Arguments Ret {A} a.
Arguments Fail {A} message.
Arguments Raise {A} e.

Definition bind {A B : Type} (c : ctl A) (k : A -> ctl B) : ctl B :=
  match c with
  | Ret a => k a
  | Fail m => Fail m
  | Raise e => Raise e
  end.

Declare Scope ctl_scope.
Delimit Scope ctl_scope with ctl.
Notation "x <- c ;; k" := (bind c (fun x => k))
  (at level 61, c at next level, right associativity) : ctl_scope.
Open Scope ctl_scope.

(** A [for] loop whose body updates the variable [s]. *)
Fixpoint for_each {A S : Type} (xs : list A) (body : A -> S -> ctl S) (s : S)
  : ctl S :=
  match xs with
  | [] => Ret s
  | x :: xs' => s' <- body x s ;; for_each xs' body s'
  end.

Fixpoint dict_lookup (key : pystr) (members : list (pystr * value))
  : option value :=
  match members with
  | [] => None
  | (k, v) :: rest => if str_eqb key k then Some v else dict_lookup key rest
  end.

Definition dict_has (key : pystr) (members : list (pystr * value)) : bool :=
  match dict_lookup key members with
  | Some _ => true
  | None => false
  end.

Definition get_or (key : pystr) (members : list (pystr * value)) (default : value)
  : value :=
  match dict_lookup key members with
  | Some v => v
  | None => default
  end.

Definition is_str (key : pystr) (v : value) : bool :=
  match v with
  | PyStr s => str_eqb key s
  | _ => false
  end.

(** [key in container], for a string [key]: key of a dict, element of a
    list, substring of a string; the other values are not iterable. *)
Definition py_in (key : pystr) (container : value) : ctl bool :=
  match container with
  | PyDict members => Ret (dict_has key members)
  | PyList items => Ret (existsb (is_str key) items)
  | PyStr s => Ret (str_contains key s)
  | PyNone | PyBool _ | PyInt _ | PyFloat _ => Raise TypeError
  end.

Definition py_not_in (key : pystr) (container : value) : ctl bool :=
  b <- py_in key container ;; Ret (negb b).

(** [container[key]], for a string [key]. *)
Definition py_getitem (container : value) (key : pystr) : ctl value :=
  match container with
  | PyDict members =>
      match dict_lookup key members with
      | Some v => Ret v
      | None => Raise KeyError
      end
  | _ => Raise TypeError
  end.

(** [obj.get(key, default)]: only a dict has the method. *)
Definition py_get (obj : value) (key : pystr) (default : value) : ctl value :=
  match obj with
  | PyDict members => Ret (get_or key members default)
  | _ => Raise AttributeError
  end.

(** [len(v)] *)
Definition py_len (v : value) : ctl nat :=
  match v with
  | PyList items => Ret (length items)
  | PyDict members => Ret (length members)
  | PyStr s => Ret (length s)
  | PyNone | PyBool _ | PyInt _ | PyFloat _ => Raise TypeError
  end.

(** The elements a [for] loop over [v] visits. *)
Definition py_iter (v : value) : ctl (list value) :=
  match v with
  | PyList items => Ret items
  | PyDict members => Ret (map (fun kv => PyStr (fst kv)) members)
  | PyStr s => Ret (map (fun c => PyStr [c]) s)
  | PyNone | PyBool _ | PyInt _ | PyFloat _ => Raise TypeError
  end.

(** [v not in names], for a set of strings: a list or a dict cannot be hashed. *)
Definition py_not_in_set (v : value) (names : list pystr) : ctl bool :=
  match v with
  | PyStr s => Ret (negb (existsb (str_eqb s) names))
  | PyList _ | PyDict _ => Raise TypeError
  | PyNone | PyBool _ | PyInt _ | PyFloat _ => Ret true
  end.

Section Formatting.

Variable rt : runtime.

(** [repr] of a string. *)
Definition repr_quote (s : pystr) : N :=
  if existsb (N.eqb 39) s && negb (existsb (N.eqb 34) s) then 34%N else 39%N.

Definition repr_char (quote c : N) : pystr :=
  if ((c =? quote) || (c =? 92))%N then [92%N; c]
  else if (c =? 9)%N then lit "\t"
  else if (c =? 10)%N then lit "\n"
  else if (c =? 13)%N then lit "\r"
  else if ((c <? 32) || (c =? 127))%N then lit "\x" ++ hex2 c
  else if (c <? 127)%N then [c]
  else if isprintable rt c then [c]
  else if (c <=? 255)%N then lit "\x" ++ hex2 c
  else if (c <=? 65535)%N then lit "\u" ++ hex4 c
  else lit "\U" ++ hex8 c.

Definition repr_str (s : pystr) : pystr :=
  let q := repr_quote s in [q] ++ flat_map (repr_char q) s ++ [q].

(** [repr(v)] *)
Fixpoint py_repr (v : value) : pystr :=
  match v with
  | PyNone => lit "None"
  | PyBool true => lit "True"
  | PyBool false => lit "False"
  | PyInt z => str_of_Z z
  | PyFloat l => float_repr rt l
  | PyStr s => repr_str s
  | PyList items => lit "[" ++ join (lit ", ") (map py_repr items) ++ lit "]"
  | PyDict members =>
      lit "{" ++
      join (lit ", ")
        (map (fun kv : pystr * value => let (k, x) := kv in repr_str k ++ lit ": " ++ py_repr x)
           members) ++
      lit "}"
  end.

(** [str(v)], what an f-string field [{v}] inserts. *)
Definition py_str (v : value) : pystr :=
  match v with
  | PyStr s => s
  | _ => py_repr v
  end.

(** *** [json.dumps(v, indent=2, ensure_ascii=...)] *)

Definition json_escape_char (ensure_ascii : bool) (c : N) : pystr :=
  if (c =? 34)%N then [92%N; 34%N]
  else if (c =? 92)%N then lit "\\"
  else if (c =? 10)%N then lit "\n"
  else if (c =? 13)%N then lit "\r"
  else if (c =? 9)%N then lit "\t"
  else if (c =? 8)%N then lit "\b"
  else if (c =? 12)%N then lit "\f"
  else if (c <? 32)%N then lit "\u" ++ hex4 c
  else if (c <=? 126)%N then [c]
  else if negb ensure_ascii then [c]
  else if (c <? 65536)%N then lit "\u" ++ hex4 c
  else
    let n := (c - 65536)%N in
    lit "\u" ++ hex4 (N.lor 55296 (N.land (N.shiftr n 10) 1023)) ++
    lit "\u" ++ hex4 (N.lor 56320 (N.land n 1023)).

Definition json_string (ensure_ascii : bool) (s : pystr) : pystr :=
  [34%N] ++ flat_map (json_escape_char ensure_ascii) s ++ [34%N].

Definition json_float (l : pystr) : pystr :=
  let r := float_repr rt l in
  if str_eqb r (lit "nan") then lit "NaN"
  else if str_eqb r (lit "inf") then lit "Infinity"
  else if str_eqb r (lit "-inf") then lit "-Infinity"
  else r.

Definition newline_indent (level : nat) : pystr :=
  nl ++ repeat 32%N (2 * level).

Fixpoint dumps_at (ensure_ascii : bool) (level : nat) (v : value) : pystr :=
  match v with
  | PyNone => lit "null"
  | PyBool true => lit "true"
  | PyBool false => lit "false"
  | PyInt z => str_of_Z z
  | PyFloat l => json_float l
  | PyStr s => json_string ensure_ascii s
  | PyList [] => lit "[]"
  | PyList items =>
      lit "[" ++ newline_indent (S level) ++
      join (lit "," ++ newline_indent (S level))
        (map (dumps_at ensure_ascii (S level)) items) ++
      newline_indent level ++ lit "]"
  | PyDict [] => lit "{}"
  | PyDict members =>
      lit "{" ++ newline_indent (S level) ++
      join (lit "," ++ newline_indent (S level))
        (map (fun kv : pystr * value => let (k, x) := kv in
                json_string ensure_ascii k ++ lit ": " ++
                dumps_at ensure_ascii (S level) x)
           members) ++
      newline_indent level ++ lit "}"
  end.

Definition json_dumps (ensure_ascii : bool) (v : value) : pystr :=
  dumps_at ensure_ascii 0 v.

End Formatting.

(** ** The program *)

(** What the statements of the program do that can be observed, in order.
    [Stderr] is what the program itself prints on the error channel; the
    traceback the interpreter prints there when an exception leaves [main]
    is not an event: such a run ends in [Raise]. *)
Inductive event : Type :=
| Stdout (text : pystr)
| Stderr (text : pystr)
| GatewayCall (system user : pystr)
| WriteFile (path content : pystr).

(** What a run is given: the command line, the credential
    ([OPENAI_API_KEY] once [load_dotenv] has run), the files on disk by
    path, the generation backend (its answer to the n-th call: the text of
    the exception it raises, or the content of the first choice, which may
    be [None]) and the date. *)
Record world : Type := {
  argv : list pystr;
  api_key : option pystr;
  files : pystr -> option pystr;
  gateway : nat -> pystr -> pystr -> pystr + option pystr;
  today : pystr
}.

(** A computation of the program: from the trace so far to the trace after
    it and the way it ended. *)
Definition run (A : Type) : Type := list event -> list event * ctl A.

Definition ret {A : Type} (a : A) : run A := fun t => (t, Ret a).

Definition rbind {A B : Type} (c : run A) (k : A -> run B) : run B :=
  fun t =>
    match c t with
    | (t', Ret a) => k a t'
    | (t', Fail m) => (t', Fail m)
    | (t', Raise e) => (t', Raise e)
    end.

Declare Scope run_scope.
Delimit Scope run_scope with run.
Notation "x <- c ;; k" := (rbind c (fun x => k))
  (at level 61, c at next level, right associativity) : run_scope.
Notation "c ;; k" := (rbind c (fun _ => k))
  (at level 61, right associativity) : run_scope.

Definition emit (e : event) : run unit := fun t => (t ++ [e], Ret tt).

(** [print(text)] and [print(text, file=sys.stderr)] *)
Definition print (text : pystr) : run unit := emit (Stdout (text ++ nl)).
Definition print_err (text : pystr) : run unit := emit (Stderr (text ++ nl)).

Definition cross_mark : pystr := [10060%N].
Definition check_mark : pystr := [10003%N].
Definition box_line : pystr := [9472%N; 9472%N].
Definition em_dash : pystr := [8212%N].
Definition mojibake_dash : pystr := [226%N; 128%N; 148%N].

(** [_fail(message)] *)
Definition _fail {A : Type} (message : pystr) : run A :=
  fun t =>
    (t ++ [Stderr ((nl ++ cross_mark ++ lit "  Pipeline failed." ++ nl ++ nl ++
                    message ++ nl) ++ nl)],
     Fail message).

(** A piece of the program that touches nothing outside: its [_fail] prints
    here. *)
Definition lift {A : Type} (c : ctl A) : run A :=
  match c with
  | Ret a => ret a
  | Fail m => _fail m
  | Raise e => fun t => (t, Raise e)
  end.

Definition _step (message : pystr) : run unit := print (lit "   " ++ message).

Definition _header (title : pystr) : run unit :=
  print (nl ++ box_line ++ lit " " ++ title).

Section Program.

Variable rt : runtime.
Variable w : world.

Local Open Scope run_scope.

(** [Path(s)], kept as its [str]; [p / name]. *)
Definition Path (s : pystr) : pystr := path_str rt s.
Definition path_div (p name : pystr) : pystr := Path (p ++ lit "/" ++ name).

(** The content of a file: the last one written during the run, or the one
    found on disk.  [None] when the path does not exist. *)
Fixpoint written (path : pystr) (t : list event) (found : option pystr)
  : option pystr :=
  match t with
  | [] => found
  | WriteFile p c :: t' =>
      written path t' (if str_eqb p path then Some c else found)
  | _ :: t' => written path t' found
  end.

Definition read_file (path : pystr) : run (option pystr) :=
  fun t => (t, Ret (written path t (files w path))).

Definition gateway_calls (t : list event) : nat :=
  length (filter (fun e => match e with GatewayCall _ _ => true | _ => false end) t).

(** [get_openai_client] *)
Definition get_openai_client : run unit :=
  match api_key w with
  | Some (_ :: _) => ret tt
  | Some [] | None => _fail (lit "OPENAI_API_KEY is not set. Add it to your .env file.")
  end.

(** [load_prompt] *)
Definition load_prompt (path : pystr) : run pystr :=
  found <- read_file path ;;
  match found with
  | None => _fail (lit "Prompt file not found: " ++ path)
  | Some content => ret content
  end.

Definition fence_json : pystr := lit "```json".
Definition fence : pystr := lit "```".

(** The text [parse_json_output] hands to [json.loads]. *)
Definition sanitize (raw : pystr) : pystr :=
  strip (removesuffix fence (removeprefix fence (removeprefix fence_json (strip raw)))).

(** [parse_json_output] *)
Definition parse_json_output (raw agent_name : pystr) : ctl value :=
  let cleaned := sanitize raw in
  match json_loads rt cleaned with
  | Decoded v => Ret v
  | JSONDecodeError e =>
      Fail (agent_name ++ lit " returned output that could not be parsed as JSON." ++
            nl ++ nl ++ lit "Parse error: " ++ e ++ nl ++ nl ++
            lit "Raw output:" ++ nl ++ cleaned)
  | LoadsRaises e => Raise e
  end.

(** [save_json] and [save_text] *)
Definition save_json (data : value) (path : pystr) : run unit :=
  emit (WriteFile path (json_dumps rt true data)).

Definition save_text (content path : pystr) : run unit :=
  emit (WriteFile path content).

(** The call [client.chat.completions.create(...)] of a stage, with its
    [try]/[except] and the [content or ""] that follows. *)
Definition call_model (agent system user : pystr) : run pystr :=
  fun t =>
    let t' := t ++ [GatewayCall system user] in
    match gateway w (gateway_calls t) system user with
    | inl e => _fail (agent ++ lit " API call failed." ++ nl ++ nl ++ lit "Error: " ++ e) t'
    | inr (Some content) => (t', Ret content)
    | inr None => (t', Ret [])
    end.

(** *** Intake *)

(** [_validate_intake] *)
Definition validate_intake (data : value) : ctl unit :=
  (let missing := [] in
   missing <-
     (absent <- py_not_in (lit "plan_context") data ;;
      if absent then Ret (missing ++ [lit "plan_context"])
      else
        for_each [lit "purpose"; lit "in_scope"; lit "out_of_scope"]
          (fun field missing =>
             plan_context <- py_getitem data (lit "plan_context") ;;
             absent <- py_not_in field plan_context ;;
             if absent then Ret (missing ++ [lit "plan_context." ++ field])
             else Ret missing)
          missing) ;;
   missing <-
     (absent <- py_not_in (lit "requirements") data ;;
      if absent then Ret (missing ++ [lit "requirements"])
      else
        requirements <- py_getitem data (lit "requirements") ;;
        reqs <- py_iter requirements ;;
        for_each reqs
          (fun req missing =>
             for_each [lit "req_id"; lit "prd_ref"; lit "ambiguity_flags"]
               (fun field missing =>
                  absent <- py_not_in field req ;;
                  if absent then
                    req_id <- py_get req (lit "req_id") (PyStr (lit "unknown")) ;;
                    Ret (missing ++ [py_str rt req_id ++ lit "." ++ field])
                  else Ret missing)
               missing)
          missing) ;;
   match missing with
   | [] => Ret tt
   | _ :: _ =>
       Fail (lit "Intake Agent output failed validation." ++ nl ++ nl ++
             lit "Missing fields: " ++ join (lit ", ") missing)
   end)%ctl.

(** [run_intake_agent] *)
Definition run_intake_agent (prd_path output_path : pystr) : run value :=
  _header (lit "Intake Agent") ;;
  _step (lit "Loading prompt...") ;;
  system_prompt <- load_prompt (Path (lit "prompts/intake_prompt.md")) ;;
  _step (lit "Loading PRD from " ++ prd_path ++ lit "...") ;;
  found <- read_file prd_path ;;
  prd_content <-
    match found with
    | None => _fail (lit "PRD file not found: " ++ prd_path)
    | Some content => ret content
    end ;;
  _step (lit "Calling model...") ;;
  raw <- call_model (lit "Intake Agent") system_prompt
           (lit "Here is the PRD to parse:" ++ nl ++ nl ++ prd_content) ;;
  output <- lift (parse_json_output raw (lit "Intake Agent")) ;;
  _step (lit "Validating output...") ;;
  lift (validate_intake output) ;;
  _step (lit "Saving output to " ++ output_path ++ lit "...") ;;
  save_json output output_path ;;
  req_count <- lift (requirements <- py_get output (lit "requirements") (PyList []) ;;
                     py_len requirements)%ctl ;;
  print (lit "   " ++ check_mark ++ lit "  Intake complete. " ++
         str_of_Z (Z.of_nat req_count) ++ lit " requirements parsed.") ;;
  ret output.

(** *** Risk *)

Definition valid_types : list pystr :=
  [lit "unit"; lit "integration"; lit "e2e"; lit "exploratory"; lit "non_functional"].

Definition valid_surfaces : list pystr :=
  [lit "ui"; lit "api"; lit "service"; lit "workflow"].

Definition risk_not_array : pystr :=
  lit "Risk Agent output failed validation." ++ nl ++ nl ++
  lit "Expected a JSON array but got something else.".

(** The two checks of one test case: [name] is ["type"] or ["surface"],
    [allowed] its enumeration. *)
Definition check_enum (tc : value) (tc_id : value) (name : pystr)
    (allowed : list pystr) (errors : list pystr) : ctl (list pystr) :=
  (absent <- py_not_in name tc ;;
   if absent then
     Ret (errors ++ [py_str rt tc_id ++ lit ": missing field '" ++ name ++ lit "'"])
   else
     given <- py_getitem tc name ;;
     outside <- py_not_in_set given allowed ;;
     if outside then
       given <- py_getitem tc name ;;
       Ret (errors ++ [py_str rt tc_id ++ lit ": invalid " ++ name ++ lit " '" ++
                       py_str rt given ++ lit "'"])
     else Ret errors)%ctl.

(** The body of the loop over the test cases of an entry. *)
Definition check_test_case (tc : value) (errors : list pystr) : ctl (list pystr) :=
  (tc_id <- py_get tc (lit "tc_id") (PyStr (lit "unknown")) ;;
   errors <- check_enum tc tc_id (lit "type") valid_types errors ;;
   check_enum tc tc_id (lit "surface") valid_surfaces errors)%ctl.

(** The body of the loop over the entries. *)
Definition check_entry (entry : value) (errors : list pystr) : ctl (list pystr) :=
  (req_id <- py_get entry (lit "req_id") (PyStr (lit "unknown")) ;;
   errors <-
     for_each [lit "req_id"; lit "risk"; lit "severity"; lit "severity_locked";
               lit "test_cases"]
       (fun field errors =>
          absent <- py_not_in field entry ;;
          if absent then
            Ret (errors ++ [py_str rt req_id ++ lit ": missing field '" ++ field ++ lit "'"])
          else Ret errors)
       errors ;;
   test_cases <- py_get entry (lit "test_cases") (PyList []) ;;
   tcs <- py_iter test_cases ;;
   for_each tcs check_test_case errors)%ctl.

(** [_validate_risk] *)
Definition validate_risk (data : value) : ctl unit :=
  match data with
  | PyList entries =>
      (errors <- for_each entries check_entry [] ;;
       match errors with
       | [] => Ret tt
       | _ :: _ =>
           Fail (lit "Risk Agent output failed validation." ++ nl ++ nl ++
                 join nl errors)
       end)%ctl
  | _ => Fail risk_not_array
  end.

(** The user message of the Risk stage. *)
Definition risk_user_message (project_context requirements : value) : pystr :=
  lit "Here are the inputs to process:" ++ nl ++ nl ++
  lit "PROJECT CONTEXT:" ++ nl ++ json_dumps rt true project_context ++ nl ++ nl ++
  lit "REQUIREMENTS:" ++ nl ++ json_dumps rt true requirements.

(** [sum(len(entry.get("test_cases", [])) for entry in output)] *)
Definition count_test_cases (output : value) : ctl nat :=
  (entries <- py_iter output ;;
   for_each entries
     (fun entry total =>
        test_cases <- py_get entry (lit "test_cases") (PyList []) ;;
        n <- py_len test_cases ;;
        Ret (total + n))
     0)%ctl.

(** [run_risk_agent] *)
Definition run_risk_agent (intake_output : value) (output_path : pystr) : run value :=
  _header (lit "Risk Agent") ;;
  _step (lit "Loading prompt...") ;;
  system_prompt <- load_prompt (Path (lit "prompts/risk_prompt.md")) ;;
  requirements <- lift (py_get intake_output (lit "requirements") (PyList [])) ;;
  project_context <- lift (py_get intake_output (lit "project_context") PyNone) ;;
  _step (lit "Building user message...") ;;
  let user_message := risk_user_message project_context requirements in
  _step (lit "Calling model...") ;;
  raw <- call_model (lit "Risk Agent") system_prompt user_message ;;
  output <- lift (parse_json_output raw (lit "Risk Agent")) ;;
  _step (lit "Validating output...") ;;
  lift (validate_risk output) ;;
  _step (lit "Saving output to " ++ output_path ++ lit "...") ;;
  save_json output output_path ;;
  tc_count <- lift (count_test_cases output) ;;
  processed <- lift (py_len output) ;;
  print (lit "   " ++ check_mark ++ lit "  Risk complete. " ++
         str_of_Z (Z.of_nat processed) ++ lit " requirements processed, " ++
         str_of_Z (Z.of_nat tc_count) ++ lit " test cases generated.") ;;
  ret output.

(** *** Review *)

Definition required_sections : list pystr :=
  [lit "## Purpose"; lit "## In Scope"; lit "## Out of Scope"; lit "## Review Decision"].

(** [_validate_review] *)
Definition validate_review (content : pystr) : ctl unit :=
  let missing := filter (fun s => negb (str_contains s content)) required_sections in
  match missing with
  | [] => Ret tt
  | _ :: _ =>
      Fail (lit "Review Agent output failed validation." ++ nl ++ nl ++
            lit "Missing sections: " ++ join (lit ", ") missing)
  end.

(** The text the Review stage validates and saves, from the generated one. *)
Definition review_output (raw : pystr) : pystr :=
  strip (replace mojibake_dash em_dash raw).

Definition review_user_message (intake_output risk_output : value)
    (folder_name : pystr) : pystr :=
  lit "Here are the two inputs to render:" ++ nl ++ nl ++
  lit "INTAKE OUTPUT:" ++ nl ++ json_dumps rt false intake_output ++ nl ++ nl ++
  lit "RISK OUTPUT:" ++ nl ++ json_dumps rt false risk_output ++ nl ++ nl ++
  lit "Artifact ID: qraft-v1-" ++ folder_name ++ nl ++
  lit "PRD Source: " ++ folder_name ++ lit ".md" ++ nl ++
  lit "Generated: " ++ today w.

(** [run_review_agent] *)
Definition run_review_agent (intake_output risk_output : value)
    (folder_name output_path : pystr) : run unit :=
  _header (lit "Review Agent") ;;
  _step (lit "Loading prompt...") ;;
  system_prompt <- load_prompt (Path (lit "prompts/review_prompt.md")) ;;
  _step (lit "Building user message...") ;;
  _step (lit "Calling model...") ;;
  raw <- call_model (lit "Review Agent") system_prompt
           (review_user_message intake_output risk_output folder_name) ;;
  let output := review_output raw in
  _step (lit "Validating output...") ;;
  lift (validate_review output) ;;
  _step (lit "Saving output to " ++ output_path ++ lit "...") ;;
  save_text output output_path ;;
  print (lit "   " ++ check_mark ++ lit "  Review complete. Test plan saved to " ++
         output_path ++ lit ".").

(** *** Runner *)

(** [main] *)
Definition main : run unit :=
  match argv w with
  | [_; arg] =>
      let prd_path := Path arg in
      let folder_name := path_stem rt arg in
      let output_dir := Path (lit "output/" ++ folder_name) in
      let intake_output_path := path_div output_dir (lit "intake_output.json") in
      let risk_output_path := path_div output_dir (lit "risk_output.json") in
      let test_plan_path := path_div output_dir (lit "test_plan.md") in
      print (nl ++ lit "QRAFT " ++ em_dash ++ lit " Phase 1 Pipeline") ;;
      print (lit "Input:  " ++ prd_path) ;;
      print (lit "Output: " ++ output_dir ++ lit "/") ;;
      get_openai_client ;;
      intake_output <- run_intake_agent prd_path intake_output_path ;;
      risk_output <- run_risk_agent intake_output risk_output_path ;;
      run_review_agent intake_output risk_output folder_name test_plan_path ;;
      print (nl ++ check_mark ++ lit "  Pipeline complete. Test plan ready for human review at " ++
             test_plan_path ++ nl)
  | _ =>
      print_err (lit "Usage: python run_pipeline.py <path-to-prd>") ;;
      print_err (lit "Example: python run_pipeline.py sample_input/prd_clean_agile.md") ;;
      (fun t => (t, Raise (SystemExit 1)))
  end.

(** The run of the program, from an empty trace: the events of its own
    statements and the way it ends.  When it ends in [Raise], the
    interpreter prints the traceback of the exception on the error channel
    after the last event. *)
Definition pipeline : list event * ctl unit := main [].

End Program.

(** ** A reference runtime

    The concrete runs below need a runtime.  This one decodes JSON by
    recursive descent (whitespace, objects, arrays, strings with their
    escapes, numbers, [true], [false], [null] and the three float names
    Python accepts); a number with a fraction or an exponent is kept as its
    literal.  The text of its [JSONDecodeError] is a fixed one: the
    library's text is not part of the program.  Paths are POSIX paths
    already in normal form. *)

Module Reference.

Definition is_ws (c : N) : bool :=
  ((c =? 32) || (c =? 9) || (c =? 10) || (c =? 13))%N.

Fixpoint skip_ws (s : pystr) : pystr :=
  match s with
  | c :: s' => if is_ws c then skip_ws s' else s
  | [] => []
  end.

Definition is_digit (c : N) : bool := ((48 <=? c) && (c <=? 57))%N.

Definition hex_value (c : N) : option N :=
  if is_digit c then Some (c - 48)%N
  else if ((97 <=? c) && (c <=? 102))%N then Some (c - 87)%N
  else if ((65 <=? c) && (c <=? 70))%N then Some (c - 55)%N
  else None.

(** The four hexadecimal digits after [\u]. *)
Definition hex4_value (s : pystr) : option (N * pystr) :=
  match s with
  | a :: b :: c :: d :: rest =>
      match hex_value a, hex_value b, hex_value c, hex_value d with
      | Some x, Some y, Some z, Some u =>
          Some (((x * 16 + y) * 16 + z) * 16 + u, rest)%N
      | _, _, _, _ => None
      end
  | _ => None
  end.

(** The characters of a string after its opening quote, up to the closing
    one. *)
Fixpoint scan_string (fuel : nat) (s : pystr) : option (pystr * pystr) :=
  match fuel with
  | O => None
  | S fuel' =>
      match s with
      | [] => None
      | 34%N :: rest => Some ([], rest)
      | 92%N :: e :: rest =>
          let plain (c : N) :=
            match scan_string fuel' rest with
            | Some (body, rest') => Some (c :: body, rest')
            | None => None
            end in
          if (e =? 34)%N then plain 34%N
          else if (e =? 92)%N then plain 92%N
          else if (e =? 47)%N then plain 47%N
          else if (e =? 98)%N then plain 8%N
          else if (e =? 102)%N then plain 12%N
          else if (e =? 110)%N then plain 10%N
          else if (e =? 114)%N then plain 13%N
          else if (e =? 116)%N then plain 9%N
          else if (e =? 117)%N then
            match hex4_value rest with
            | None => None
            | Some (hi, rest1) =>
                let single :=
                  match scan_string fuel' rest1 with
                  | Some (body, rest') => Some (hi :: body, rest')
                  | None => None
                  end in
                if ((55296 <=? hi) && (hi <=? 56319))%N then
                  match rest1 with
                  | 92%N :: 117%N :: rest2 =>
                      match hex4_value rest2 with
                      | Some (lo, rest3) =>
                          if ((56320 <=? lo) && (lo <=? 57343))%N then
                            match scan_string fuel' rest3 with
                            | Some (body, rest') =>
                                Some ((65536 + (hi - 55296) * 1024 + (lo - 56320))%N :: body,
                                      rest')
                            | None => None
                            end
                          else single
                      | None => single
                      end
                  | _ => single
                  end
                else single
            end
          else None
      | c :: rest =>
          if (c <? 32)%N then None
          else
            match scan_string fuel' rest with
            | Some (body, rest') => Some (c :: body, rest')
            | None => None
            end
      end
  end.

Fixpoint span_digits (s : pystr) : pystr * pystr :=
  match s with
  | c :: s' =>
      if is_digit c then let (d, r) := span_digits s' in (c :: d, r) else ([], s)
  | [] => ([], [])
  end.

Definition digits_value (d : pystr) : Z :=
  fold_left (fun acc c => (acc * 10 + Z.of_N (c - 48))%Z) d 0%Z.

(** A number: an optional minus sign, [0] or digits that do not start with
    [0], an optional fraction, an optional exponent. *)
Definition scan_number (s : pystr) : option (value * pystr) :=
  let (sign, s1) :=
    match s with
    | 45%N :: s' => ([45%N], s')
    | _ => ([], s)
    end in
  let (int_part, s2) :=
    match s1 with
    | 48%N :: s' => ([48%N], s')
    | _ => span_digits s1
    end in
  match int_part with
  | [] => None
  | _ :: _ =>
      let (frac, s3) :=
        match s2 with
        | 46%N :: s' =>
            let (d, r) := span_digits s' in
            match d with
            | [] => ([], s2)
            | _ :: _ => (46%N :: d, r)
            end
        | _ => ([], s2)
        end in
      let (expo, s4) :=
        match s3 with
        | e :: s' =>
            if ((e =? 101) || (e =? 69))%N then
              let (sg, s'') :=
                match s' with
                | c :: r => if ((c =? 43) || (c =? 45))%N then ([c], r) else ([], s')
                | [] => ([], s')
                end in
              let (d, r) := span_digits s'' in
              match d with
              | [] => ([], s3)
              | _ :: _ => (e :: sg ++ d, r)
              end
            else ([], s3)
        | [] => ([], s3)
        end in
      match frac, expo with
      | [], [] =>
          Some (PyInt (match sign with
                       | [] => digits_value int_part
                       | _ :: _ => - digits_value int_part
                       end)%Z, s4)
      | _, _ => Some (PyFloat (sign ++ int_part ++ frac ++ expo), s4)
      end
  end.

(** [dict] keeps the place of the first occurrence of a key and the value of
    the last. *)
Fixpoint dict_set (key : pystr) (v : value) (members : list (pystr * value))
  : list (pystr * value) :=
  match members with
  | [] => [(key, v)]
  | (k, x) :: rest =>
      if str_eqb key k then (k, v) :: rest else (k, x) :: dict_set key v rest
  end.

Definition dict_of (pairs : list (pystr * value)) : list (pystr * value) :=
  fold_left (fun members kv => dict_set (fst kv) (snd kv) members) pairs [].

Fixpoint scan_value (fuel : nat) (s : pystr) : option (value * pystr) :=
  match fuel with
  | O => None
  | S fuel' =>
      match s with
      | [] => None
      | c :: rest =>
          if (c =? 34)%N then
            match scan_string (length rest) rest with
            | Some (body, rest') => Some (PyStr body, rest')
            | None => None
            end
          else if (c =? 123)%N then
            match skip_ws rest with
            | 125%N :: rest' => Some (PyDict [], rest')
            | after =>
                match scan_members fuel' after with
                | Some (pairs, rest') => Some (PyDict (dict_of pairs), rest')
                | None => None
                end
            end
          else if (c =? 91)%N then
            match skip_ws rest with
            | 93%N :: rest' => Some (PyList [], rest')
            | after =>
                match scan_items fuel' after with
                | Some (items, rest') => Some (PyList items, rest')
                | None => None
                end
            end
          else if startswith (lit "null") s then Some (PyNone, skipn 4 s)
          else if startswith (lit "true") s then Some (PyBool true, skipn 4 s)
          else if startswith (lit "false") s then Some (PyBool false, skipn 5 s)
          else
            match scan_number s with
            | Some r => Some r
            | None =>
                if startswith (lit "NaN") s then Some (PyFloat (lit "NaN"), skipn 3 s)
                else if startswith (lit "Infinity") s
                then Some (PyFloat (lit "Infinity"), skipn 8 s)
                else if startswith (lit "-Infinity") s
                then Some (PyFloat (lit "-Infinity"), skipn 9 s)
                else None
            end
      end
  end

(** The items of an array, from the first one to the closing bracket. *)
with scan_items (fuel : nat) (s : pystr) : option (list value * pystr) :=
  match fuel with
  | O => None
  | S fuel' =>
      match scan_value fuel' s with
      | None => None
      | Some (v, rest) =>
          match skip_ws rest with
          | 93%N :: rest' => Some ([v], rest')
          | 44%N :: rest' =>
              match scan_items fuel' (skip_ws rest') with
              | Some (items, rest'') => Some (v :: items, rest'')
              | None => None
              end
          | _ => None
          end
      end
  end

(** The members of an object, from the first key to the closing brace. *)
with scan_members (fuel : nat) (s : pystr)
  : option (list (pystr * value) * pystr) :=
  match fuel with
  | O => None
  | S fuel' =>
      match s with
      | 34%N :: rest =>
          match scan_string (length rest) rest with
          | None => None
          | Some (key, rest1) =>
              match skip_ws rest1 with
              | 58%N :: rest2 =>
                  match scan_value fuel' (skip_ws rest2) with
                  | None => None
                  | Some (v, rest3) =>
                      match skip_ws rest3 with
                      | 125%N :: rest' => Some ([(key, v)], rest')
                      | 44%N :: rest' =>
                          match scan_members fuel' (skip_ws rest') with
                          | Some (pairs, rest'') => Some ((key, v) :: pairs, rest'')
                          | None => None
                          end
                      | _ => None
                      end
                  end
              | _ => None
              end
          end
      | _ => None
      end
  end.

Definition decode_error : pystr := lit "Expecting value".

Definition loads (s : pystr) : loads_result :=
  match scan_value (S (length s)) (skip_ws s) with
  | Some (v, rest) =>
      match skip_ws rest with
      | [] => Decoded v
      | _ :: _ => JSONDecodeError decode_error
      end
  | None => JSONDecodeError decode_error
  end.

(** The last component of a path, and the component without its suffix. *)
Fixpoint before (c : N) (s : pystr) : pystr :=
  match s with
  | [] => []
  | x :: s' => if (x =? c)%N then [] else x :: before c s'
  end.

Definition path_name (s : pystr) : pystr := rev (before 47%N (rev s)).

Definition stem (s : pystr) : pystr :=
  let name := path_name s in
  let suffix := before 46%N (rev name) in
  let i := length name - length suffix - 1 in
  if (0 <? i) && (i <? length name - 1) && (length suffix <? length name)
  then firstn i name else name.

Definition rt : runtime := {|
  json_loads := loads;
  float_repr := fun l => l;
  isprintable := fun _ => true;
  path_str := fun s => s;
  path_stem := stem
|}.

End Reference.

(** ** The vocabulary of the specification *)

(** [m] occurs in [s] as a substring. *)
Definition occurs (m s : pystr) : Prop := exists a b, s = a ++ m ++ b.

Definition review_failed (missing : list pystr) : ctl unit :=
  match missing with
  | [] => Ret tt
  | _ :: _ =>
      Fail (lit "Review Agent output failed validation." ++ nl ++ nl ++
            lit "Missing sections: " ++ join (lit ", ") missing)
  end.

(** A loop body that only appends entries satisfying [Q] to its list. *)
Definition appends (Q : pystr -> Prop) {A : Type}
    (body : A -> list pystr -> ctl (list pystr)) : Prop :=
  forall x acc acc', body x acc = Ret acc' ->
                     exists extra, acc' = acc ++ extra /\ Forall Q extra.

(** A computation that never calls [_fail]. *)
Definition no_fail {A : Type} (c : ctl A) : Prop := forall m, c <> Fail m.

Definition ends_with_quote (s : pystr) : Prop := exists body, s = body ++ [39%N].

Definition is_scalar (v : value) : bool :=
  match v with
  | PyList _ | PyDict _ => false
  | _ => true
  end.

Definition in_enum (v : value) (allowed : list pystr) : bool :=
  match v with
  | PyStr s => existsb (str_eqb s) allowed
  | _ => false
  end.

Definition entry_fields : list pystr :=
  [lit "req_id"; lit "risk"; lit "severity"; lit "severity_locked"; lit "test_cases"].

Definition risk_verdict (violations : list pystr) : ctl unit :=
  match violations with
  | [] => Ret tt
  | _ :: _ =>
      Fail (lit "Risk Agent output failed validation." ++ nl ++ nl ++ join nl violations)
  end.

(** The shape: a test case is a mapping whose [type] and [surface], when
    present, are not themselves sequences or mappings; an entry is a mapping
    whose [test_cases], when present, is a sequence of test cases. *)
Definition scalar_if_present (key : pystr) (members : list (pystr * value)) : bool :=
  match dict_lookup key members with
  | Some v => is_scalar v
  | None => true
  end.

Definition tc_shaped (tc : value) : bool :=
  match tc with
  | PyDict members =>
      scalar_if_present (lit "type") members && scalar_if_present (lit "surface") members
  | _ => false
  end.

Definition entry_shaped (entry : value) : bool :=
  match entry with
  | PyDict members =>
      match dict_lookup (lit "test_cases") members with
      | Some (PyList tcs) => forallb tc_shaped tcs
      | Some _ => false
      | None => true
      end
  | _ => false
  end.

Definition plan_fields : list pystr := [lit "purpose"; lit "in_scope"; lit "out_of_scope"].

Definition requirement_fields : list pystr :=
  [lit "req_id"; lit "prd_ref"; lit "ambiguity_flags"].

(** The identifiers of the required fields a payload misses, said the way
    the specification says it: a missing top-level key by its name, a
    missing field of a present [plan_context] as [plan_context.field], a
    missing field of a requirement under the requirement's [req_id], or
    [unknown] when the requirement has none. *)
Definition missing_in_plan_context (members : list (pystr * value)) : list pystr :=
  match dict_lookup (lit "plan_context") members with
  | None => [lit "plan_context"]
  | Some (PyDict plan_context) =>
      flat_map (fun field =>
                  if dict_has field plan_context then []
                  else [lit "plan_context." ++ field])
        plan_fields
  | Some _ => []
  end.

(** The number N of required fields a payload misses. *)
Definition count_absent (fields : list pystr) (members : list (pystr * value)) : nat :=
  length (filter (fun field => negb (dict_has field members)) fields).

Definition count_missing (members : list (pystr * value)) : nat :=
  match dict_lookup (lit "plan_context") members with
  | None => 1
  | Some (PyDict plan_context) => count_absent plan_fields plan_context
  | Some _ => 0
  end +
  match dict_lookup (lit "requirements") members with
  | None => 1
  | Some (PyList reqs) =>
      list_sum (map (fun req => match req with
                                | PyDict m => count_absent requirement_fields m
                                | _ => 0
                                end) reqs)
  | Some _ => 0
  end.

Definition intake_verdict (missing : list pystr) : ctl unit :=
  match missing with
  | [] => Ret tt
  | _ :: _ =>
      Fail (lit "Intake Agent output failed validation." ++ nl ++ nl ++
            lit "Missing fields: " ++ join (lit ", ") missing)
  end.

(** The shape of an Intake payload: [plan_context], when present, is a
    mapping; [requirements], when present, is a sequence of mappings. *)
Definition is_dict (v : value) : bool :=
  match v with
  | PyDict _ => true
  | _ => false
  end.

Definition intake_shaped (members : list (pystr * value)) : bool :=
  match dict_lookup (lit "plan_context") members with
  | Some v => is_dict v
  | None => true
  end &&
  match dict_lookup (lit "requirements") members with
  | Some (PyList reqs) => forallb is_dict reqs
  | Some _ => false
  | None => true
  end.

(** An event on the console: neither a Gateway call nor a file written. *)
Definition console (e : event) : bool :=
  match e with
  | Stdout _ | Stderr _ => true
  | GatewayCall _ _ | WriteFile _ _ => false
  end.

(** The events of a trace that reach outside the console, in order. *)
Definition effects (t : list event) : list event :=
  filter (fun e => negb (console e)) t.

(** The text of the reply of the Gateway: [content or ""]. *)
Definition reply_text (reply : option pystr) : pystr :=
  match reply with
  | Some content => content
  | None => []
  end.

Definition intake_user_message (prd_content : pystr) : pystr :=
  lit "Here is the PRD to parse:" ++ nl ++ nl ++ prd_content.

Section Specification.

Variable rt : runtime.

(** The name a test case goes by in a message: its [tc_id], or [unknown]. *)
Definition tc_key (tc : list (pystr * value)) : pystr :=
  py_str rt (get_or (lit "tc_id") tc (PyStr (lit "unknown"))).

Definition enum_violation (tc : list (pystr * value)) (name : pystr)
    (allowed : list pystr) : list pystr :=
  match dict_lookup name tc with
  | None => [tc_key tc ++ lit ": missing field '" ++ name ++ lit "'"]
  | Some given =>
      if in_enum given allowed then []
      else [tc_key tc ++ lit ": invalid " ++ name ++ lit " '" ++ py_str rt given ++ lit "'"]
  end.

Definition tc_violations (tc : value) : list pystr :=
  match tc with
  | PyDict members =>
      enum_violation members (lit "type") valid_types ++
      enum_violation members (lit "surface") valid_surfaces
  | _ => []
  end.

Definition entry_violations (entry : value) : list pystr :=
  match entry with
  | PyDict members =>
      let req_id := py_str rt (get_or (lit "req_id") members (PyStr (lit "unknown"))) in
      flat_map (fun field =>
                  if dict_has field members then []
                  else [req_id ++ lit ": missing field '" ++ field ++ lit "'"])
        entry_fields ++
      match get_or (lit "test_cases") members (PyList []) with
      | PyList tcs => flat_map tc_violations tcs
      | _ => []
      end
  | _ => []
  end.

Definition missing_in_requirement (req : value) : list pystr :=
  match req with
  | PyDict members =>
      flat_map (fun field =>
                  if dict_has field members then []
                  else [py_str rt (get_or (lit "req_id") members (PyStr (lit "unknown"))) ++
                        lit "." ++ field])
        requirement_fields
  | _ => []
  end.

Definition missing_in_requirements (members : list (pystr * value)) : list pystr :=
  match dict_lookup (lit "requirements") members with
  | None => [lit "requirements"]
  | Some (PyList reqs) => flat_map missing_in_requirement reqs
  | Some _ => []
  end.

Definition intake_missing (members : list (pystr * value)) : list pystr :=
  missing_in_plan_context members ++ missing_in_requirements members.

(** The places of the three artifacts, from the argument of the command
    line. *)
Definition output_dir (arg : pystr) : pystr :=
  Path rt (lit "output/" ++ path_stem rt arg).

Definition intake_output_path (arg : pystr) : pystr :=
  path_div rt (output_dir arg) (lit "intake_output.json").

Definition risk_output_path (arg : pystr) : pystr :=
  path_div rt (output_dir arg) (lit "risk_output.json").

Definition test_plan_path (arg : pystr) : pystr :=
  path_div rt (output_dir arg) (lit "test_plan.md").

(** The order of a complete run outside the console. *)
Definition full_order (arg s1 u1 c1 s2 u2 c2 s3 u3 c3 : pystr) : list event :=
  [GatewayCall s1 u1; WriteFile (intake_output_path arg) c1;
   GatewayCall s2 u2; WriteFile (risk_output_path arg) c2;
   GatewayCall s3 u3; WriteFile (test_plan_path arg) c3].

Definition prompt_not_found (prompt : pystr) : pystr :=
  lit "Prompt file not found: " ++ Path rt prompt.

End Specification.

(** ** Worlds for concrete runs *)

Module Demo.

(** A JSON string literal. *)
Definition q (s : string) : pystr := [34%N] ++ lit s ++ [34%N].

Definition plan_context_json : pystr :=
  q "plan_context" ++ lit ": {" ++ q "purpose" ++ lit ": " ++ q "p" ++ lit ", " ++
  q "in_scope" ++ lit ": " ++ q "i" ++ lit ", " ++
  q "out_of_scope" ++ lit ": " ++ q "o" ++ lit "}".

Definition intake_json : pystr :=
  lit "{" ++ plan_context_json ++ lit ", " ++
  q "requirements" ++ lit ": [{" ++ q "req_id" ++ lit ": " ++ q "R1" ++ lit ", " ++
  q "prd_ref" ++ lit ": " ++ q "1" ++ lit ", " ++
  q "ambiguity_flags" ++ lit ": []}]}".

Definition intake_json_without_requirements : pystr :=
  lit "{" ++ plan_context_json ++ lit "}".

Definition risk_json : pystr :=
  fence_json ++ nl ++
  lit "[{" ++ q "req_id" ++ lit ": " ++ q "R1" ++ lit ", " ++
  q "risk" ++ lit ": " ++ q "r" ++ lit ", " ++
  q "severity" ++ lit ": " ++ q "high" ++ lit ", " ++
  q "severity_locked" ++ lit ": false, " ++
  q "test_cases" ++ lit ": [{" ++ q "tc_id" ++ lit ": " ++ q "TC1" ++ lit ", " ++
  q "type" ++ lit ": " ++ q "unit" ++ lit ", " ++
  q "surface" ++ lit ": " ++ q "api" ++ lit "}]}]" ++ nl ++ fence.

Definition review_text : pystr :=
  lit "## Purpose " ++ mojibake_dash ++ lit " plan" ++ nl ++
  lit "## In Scope" ++ nl ++ lit "## Out of Scope" ++ nl ++
  lit "## Review Decision" ++ nl.

Definition prd_path : pystr := lit "sample_input/prd_clean_agile.md".

Definition disk (with_risk_prompt : bool) (path : pystr) : option pystr :=
  if str_eqb path (lit "prompts/intake_prompt.md") then Some (lit "Parse the PRD.")
  else if str_eqb path (lit "prompts/risk_prompt.md")
  then (if with_risk_prompt then Some (lit "Assess the risks.") else None)
  else if str_eqb path (lit "prompts/review_prompt.md") then Some (lit "Render the plan.")
  else if str_eqb path prd_path then Some (lit "# PRD")
  else None.

Definition backend (first : pystr) (n : nat) (system user : pystr)
  : pystr + option pystr :=
  match n with
  | 0 => inr (Some first)
  | 1 => inr (Some risk_json)
  | _ => inr (Some review_text)
  end.

Definition world_of (with_risk_prompt : bool) (first : pystr) : world := {|
  argv := [lit "run_pipeline.py"; prd_path];
  api_key := Some (lit "sk-test");
  files := disk with_risk_prompt;
  gateway := backend first;
  today := lit "2026-01-01"
|}.

(** Everything in place; the Risk template missing; an Intake reply
    without [requirements]. *)
Definition complete : world := world_of true intake_json.
Definition without_risk_prompt : world := world_of false intake_json.
Definition without_requirements : world := world_of true intake_json_without_requirements.

Definition plan_context_value : value :=
  PyDict [(lit "purpose", PyStr (lit "p")); (lit "in_scope", PyStr (lit "i"));
          (lit "out_of_scope", PyStr (lit "o"))].

End Demo.

(** ** More vocabulary: diagnostics and failing worlds *)

(** The em dash as it reads when its UTF-8 bytes are decoded as Windows-1252
    (U+00E2 U+20AC U+201D); the sequence the Review stage replaces,
    [mojibake_dash], is the same bytes decoded as Latin-1. *)
Definition cp1252_dash : pystr := [226%N; 8364%N; 8221%N].

Definition no_mojibake (s : pystr) : Prop := str_contains mojibake_dash s = false.


(** What [_fail(message)] writes on the error channel. *)
Definition fail_banner (message : pystr) : pystr :=
  (nl ++ cross_mark ++ lit "  Pipeline failed." ++ nl ++ nl ++ message ++ nl) ++ nl.

Definition is_stderr (e : event) : bool :=
  match e with
  | Stderr _ => true
  | _ => false
  end.

Definition all_sections_missing : pystr :=
  lit "Review Agent output failed validation." ++ nl ++ nl ++
  lit "Missing sections: " ++
  lit "## Purpose, ## In Scope, ## Out of Scope, ## Review Decision".

Definition api_call_failed (agent e : pystr) : pystr :=
  agent ++ lit " API call failed." ++ nl ++ nl ++ lit "Error: " ++ e.

Definition not_parsed (agent e cleaned : pystr) : pystr :=
  agent ++ lit " returned output that could not be parsed as JSON." ++
  nl ++ nl ++ lit "Parse error: " ++ e ++ nl ++ nl ++
  lit "Raw output:" ++ nl ++ cleaned.

(** What the statements of the program print on the error channel for a
    way of ending: the banner of [_fail], and nothing of their own
    otherwise. *)
Definition diagnostic {A : Type} (r : ctl A) : list event :=
  match r with
  | Fail m => [Stderr (fail_banner m)]
  | _ => []
  end.

Definition usage_lines : list event :=
  [Stderr (lit "Usage: python run_pipeline.py <path-to-prd>" ++ nl);
   Stderr (lit "Example: python run_pipeline.py sample_input/prd_clean_agile.md" ++ nl)].

(** What [main] has printed when it calls the Intake stage, and the call of
    the stages as [main] makes them. *)
Definition started (rt : runtime) (arg : pystr) : list event :=
  [Stdout ((nl ++ lit "QRAFT " ++ em_dash ++ lit " Phase 1 Pipeline") ++ nl);
   Stdout ((lit "Input:  " ++ Path rt arg) ++ nl);
   Stdout ((lit "Output: " ++ output_dir rt arg ++ lit "/") ++ nl)].

Definition intake_of_run (rt : runtime) (w : world) (arg : pystr)
  : list event * ctl value :=
  run_intake_agent rt w (Path rt arg) (intake_output_path rt arg) (started rt arg).

Definition risk_of_run (rt : runtime) (w : world) (arg : pystr)
    (intake_output : value) (t : list event) : list event * ctl value :=
  run_risk_agent rt w intake_output (risk_output_path rt arg) t.

(** A Risk entry with its five fields and one test case [TC-1] of the
    given [type] and [surface]. *)
Definition risk_entry_with (type surface : value) : value :=
  PyDict [(lit "req_id", PyStr (lit "R1"));
          (lit "risk", PyStr (lit "r"));
          (lit "severity", PyStr (lit "high"));
          (lit "severity_locked", PyBool false);
          (lit "test_cases",
           PyList [PyDict [(lit "tc_id", PyStr (lit "TC-1"));
                           (lit "type", type);
                           (lit "surface", surface)]])].

Module Cases.

(** A backend that is down, one that answers with text that is no JSON,
    and worlds without a credential, without the PRD, with a wrong command
    line. *)
Definition down (n : nat) (system user : pystr) : pystr + option pystr :=
  inl (lit "Connection error.").

Definition backend_down : world := {|
  argv := [lit "run_pipeline.py"; Demo.prd_path];
  api_key := Some (lit "sk-test");
  files := Demo.disk true;
  gateway := down;
  today := lit "2026-01-01"
|}.

Definition chatty : world := Demo.world_of true (lit "Sure! Here is the JSON you asked for.").

Definition no_credential : world := {|
  argv := [lit "run_pipeline.py"; Demo.prd_path];
  api_key := None;
  files := Demo.disk true;
  gateway := Demo.backend Demo.intake_json;
  today := lit "2026-01-01"
|}.

Definition no_prd : world := {|
  argv := [lit "run_pipeline.py"; lit "sample_input/missing.md"];
  api_key := Some (lit "sk-test");
  files := Demo.disk true;
  gateway := Demo.backend Demo.intake_json;
  today := lit "2026-01-01"
|}.

Definition no_argument : world := {|
  argv := [lit "run_pipeline.py"];
  api_key := Some (lit "sk-test");
  files := Demo.disk true;
  gateway := Demo.backend Demo.intake_json;
  today := lit "2026-01-01"
|}.

Definition silent (n : nat) (system user : pystr) : pystr + option pystr :=
  inr None.

Definition backend_silent : world := {|
  argv := [lit "run_pipeline.py"; Demo.prd_path];
  api_key := Some (lit "sk-test");
  files := Demo.disk true;
  gateway := silent;
  today := lit "2026-01-01"
|}.

(** A backend whose Review reply holds the Windows-1252 reading of the
    em dash. *)
Definition cp1252_review : pystr :=
  lit "## Purpose " ++ cp1252_dash ++ lit " plan" ++ nl ++
  lit "## In Scope" ++ nl ++ lit "## Out of Scope" ++ nl ++
  lit "## Review Decision".

Definition answers_cp1252 (n : nat) (system user : pystr) : pystr + option pystr :=
  inr (Some cp1252_review).

Definition backend_cp1252 : world := {|
  argv := [lit "run_pipeline.py"; Demo.prd_path];
  api_key := Some (lit "sk-test");
  files := Demo.disk true;
  gateway := answers_cp1252;
  today := lit "2026-01-01"
|}.

(** A world without the Review template. *)
Definition disk_without_review (path : pystr) : option pystr :=
  if str_eqb path (lit "prompts/review_prompt.md") then None else Demo.disk true path.

Definition without_review_prompt : world := {|
  argv := [lit "run_pipeline.py"; Demo.prd_path];
  api_key := Some (lit "sk-test");
  files := disk_without_review;
  gateway := Demo.backend Demo.intake_json;
  today := lit "2026-01-01"
|}.

End Cases.

(** ** Strings *)

Lemma str_eqb_eq (a b : pystr) : str_eqb a b = true <-> a = b.
Proof.
  revert b; induction a as [|x a IH]; intros [|y b]; simpl; split;
    try congruence; try reflexivity.
  - rewrite andb_true_iff, N.eqb_eq, IH. intros [-> ->]; reflexivity.
  - intros H; injection H as -> ->. rewrite N.eqb_refl; simpl. apply IH; reflexivity.
Qed.

Lemma str_eqb_refl (a : pystr) : str_eqb a a = true.
Proof. apply str_eqb_eq; reflexivity. Qed.

Lemma startswith_iff (p s : pystr) :
  startswith p s = true <-> exists r, s = p ++ r.
Proof.
  revert s; induction p as [|x p IH]; intros s; simpl.
  - split; [intros _; exists s; reflexivity | reflexivity].
  - destruct s as [|y s].
    + split; [discriminate | intros [r H]; discriminate].
    + rewrite andb_true_iff, N.eqb_eq, IH. split.
      * intros [-> [r ->]]; exists r; reflexivity.
      * intros [r H]; injection H as -> ->; split; [reflexivity | exists r; reflexivity].
Qed.

Lemma startswith_app (p r : pystr) : startswith p (p ++ r) = true.
Proof. apply startswith_iff; exists r; reflexivity. Qed.

Lemma str_contains_iff (m s : pystr) : str_contains m s = true <-> occurs m s.
Proof.
  unfold occurs. induction s as [|c s IH].
  - simpl. rewrite orb_false_r, startswith_iff. split.
    + intros [r H]; exists [], r; exact H.
    + intros [a [b H]]. destruct a; [exists b; exact H | discriminate].
  - cbn [str_contains]. rewrite orb_true_iff, startswith_iff, IH. split.
    + intros [[r H] | [a [b H]]].
      * exists [], r; exact H.
      * exists (c :: a), b; rewrite H; reflexivity.
    + intros [[|x a] [b H]].
      * left; exists b; exact H.
      * right; injection H as _ H; exists a, b; exact H.
Qed.

Lemma str_contains_false (m s : pystr) : str_contains m s = false <-> ~ occurs m s.
Proof.
  rewrite <- str_contains_iff. destruct (str_contains m s); split; intros; congruence.
Qed.

Lemma occurs_in_part (m a s b : pystr) : occurs m s -> occurs m (a ++ s ++ b).
Proof.
  intros [x [y ->]]. exists (a ++ x), (y ++ b). now rewrite !app_assoc.
Qed.

(** *** [strip] *)

Lemma lstrip_spaces (ws s : pystr) :
  forallb isspace ws = true -> lstrip (ws ++ s) = lstrip s.
Proof.
  induction ws as [|c ws IH]; simpl; [reflexivity|].
  rewrite andb_true_iff; intros [-> H]; exact (IH H).
Qed.

Lemma lstrip_head (c : N) (s : pystr) : isspace c = false -> lstrip (c :: s) = c :: s.
Proof. simpl; intros ->; reflexivity. Qed.

Lemma lstrip_suffix (s : pystr) :
  exists ws, forallb isspace ws = true /\ s = ws ++ lstrip s.
Proof.
  induction s as [|c s [ws [H E]]]; simpl.
  - exists []; split; reflexivity.
  - destruct (isspace c) eqn:C.
    + exists (c :: ws); simpl; rewrite C, H; split; [reflexivity | congruence].
    + exists []; split; reflexivity.
Qed.

Lemma lstrip_idem (s : pystr) : lstrip (lstrip s) = lstrip s.
Proof.
  induction s as [|c s IH]; simpl; [reflexivity|].
  destruct (isspace c) eqn:C; [exact IH | simpl; rewrite C; reflexivity].
Qed.

Lemma forallb_rev {A : Type} (f : A -> bool) (l : list A) :
  forallb f (rev l) = forallb f l.
Proof.
  induction l as [|x l IH]; simpl; [reflexivity|].
  rewrite forallb_app, IH; simpl. rewrite andb_true_r, andb_comm; reflexivity.
Qed.

Lemma rstrip_spaces (s ws : pystr) :
  forallb isspace ws = true -> rstrip (s ++ ws) = rstrip s.
Proof.
  intros H. unfold rstrip. rewrite rev_app_distr, lstrip_spaces; [reflexivity|].
  rewrite forallb_rev; exact H.
Qed.

Lemma rstrip_last (s : pystr) (c : N) : isspace c = false -> rstrip (s ++ [c]) = s ++ [c].
Proof.
  intros H. unfold rstrip. rewrite rev_app_distr; simpl. rewrite H; simpl.
  rewrite rev_involutive; reflexivity.
Qed.

Lemma rstrip_prefix (s : pystr) :
  exists ws, forallb isspace ws = true /\ s = rstrip s ++ ws.
Proof.
  destruct (lstrip_suffix (rev s)) as [ws [H E]].
  exists (rev ws). rewrite forallb_rev. split; [exact H|].
  unfold rstrip. rewrite <- rev_app_distr, <- E, rev_involutive; reflexivity.
Qed.

Lemma rstrip_idem (s : pystr) : rstrip (rstrip s) = rstrip s.
Proof. unfold rstrip. rewrite rev_involutive, lstrip_idem; reflexivity. Qed.

Lemma lstrip_length (s : pystr) : length (lstrip s) <= length s.
Proof.
  induction s as [|c s IH]; simpl; [lia|]. destruct (isspace c); simpl; lia.
Qed.

Lemma lstrip_fixed_head (d : N) (y : pystr) :
  lstrip (d :: y) = d :: y -> isspace d = false.
Proof.
  simpl. destruct (isspace d); [|reflexivity].
  intros H. pose proof (lstrip_length y) as L. rewrite H in L; simpl in L; lia.
Qed.

(** Removing spaces on the right leaves the first character in place. *)
Lemma lstrip_rstrip_clean (x : pystr) :
  lstrip x = x -> lstrip (rstrip x) = rstrip x.
Proof.
  intros H. destruct (rstrip_prefix x) as [ws [_ E]].
  destruct (rstrip x) as [|d r]; [reflexivity|].
  rewrite E in H; simpl in H. apply lstrip_fixed_head in H.
  apply lstrip_head; exact H.
Qed.

Lemma strip_idem (s : pystr) : strip (strip s) = strip s.
Proof.
  unfold strip. rewrite lstrip_rstrip_clean by apply lstrip_idem.
  apply rstrip_idem.
Qed.

Lemma lstrip_all_spaces (ws : pystr) : forallb isspace ws = true -> lstrip ws = [].
Proof.
  induction ws as [|c ws IH]; simpl; [reflexivity|].
  rewrite andb_true_iff; intros [-> H]; exact (IH H).
Qed.

Lemma strip_spaces_right (s ws : pystr) :
  forallb isspace ws = true -> strip (s ++ ws) = strip s.
Proof.
  intros H. unfold strip. induction s as [|c s IH]; simpl.
  - rewrite lstrip_all_spaces by exact H. reflexivity.
  - destruct (isspace c); [exact IH|].
    rewrite app_comm_cons. apply rstrip_spaces; exact H.
Qed.

Lemma strip_spaces (ws1 s ws2 : pystr) :
  forallb isspace ws1 = true -> forallb isspace ws2 = true ->
  strip (ws1 ++ s ++ ws2) = strip s.
Proof.
  intros H1 H2. rewrite app_assoc, strip_spaces_right by exact H2.
  unfold strip. rewrite lstrip_spaces by exact H1. reflexivity.
Qed.

(** The text is its stripped part between two runs of spaces. *)
Lemma strip_decompose (s : pystr) :
  exists ws1 ws2, forallb isspace ws1 = true /\ forallb isspace ws2 = true /\
                  s = ws1 ++ strip s ++ ws2.
Proof.
  destruct (lstrip_suffix s) as [ws1 [H1 E1]].
  destruct (rstrip_prefix (lstrip s)) as [ws2 [H2 E2]].
  exists ws1, ws2. repeat split; try assumption.
  unfold strip. rewrite <- E2. exact E1.
Qed.

(** *** Prefixes and suffixes *)

Lemma skipn_length_app {A : Type} (p r : list A) : skipn (length p) (p ++ r) = r.
Proof. induction p as [|x p IH]; simpl; [reflexivity | exact IH]. Qed.

Lemma firstn_length_app {A : Type} (p r : list A) : firstn (length p) (p ++ r) = p.
Proof. induction p as [|x p IH]; simpl; [reflexivity | rewrite IH; reflexivity]. Qed.

Lemma removeprefix_app (p r : pystr) : removeprefix p (p ++ r) = r.
Proof. unfold removeprefix. rewrite startswith_app. apply skipn_length_app. Qed.

Lemma endswith_iff (p s : pystr) : endswith p s = true <-> exists y, s = y ++ p.
Proof.
  unfold endswith. rewrite andb_true_iff, Nat.leb_le, str_eqb_eq. split.
  - intros [_ H]. exists (firstn (length s - length p) s).
    rewrite <- H at 2. symmetry; apply firstn_skipn.
  - intros [y ->]. rewrite length_app. split; [lia|].
    replace (length y + length p - length p) with (length y) by lia.
    apply skipn_length_app.
Qed.

Lemma removesuffix_app (y p : pystr) : p <> [] -> removesuffix p (y ++ p) = y.
Proof.
  intros H. unfold removesuffix. destruct p as [|c p]; [congruence|].
  assert (endswith (c :: p) (y ++ c :: p) = true) as -> by (apply endswith_iff; eauto).
  rewrite length_app.
  replace (length y + length (c :: p) - length (c :: p)) with (length y) by lia.
  apply firstn_length_app.
Qed.

Lemma removeprefix_none (p s : pystr) : startswith p s = false -> removeprefix p s = s.
Proof. unfold removeprefix; intros ->; reflexivity. Qed.

Lemma removesuffix_none (p s : pystr) : endswith p s = false -> removesuffix p s = s.
Proof. unfold removesuffix; intros ->; destruct p; reflexivity. Qed.

Lemma startswith_occurs (p s : pystr) : startswith p s = true -> occurs p s.
Proof. rewrite startswith_iff. intros [r ->]. exists [], r; reflexivity. Qed.

Lemma endswith_occurs (p s : pystr) : endswith p s = true -> occurs p s.
Proof.
  rewrite endswith_iff. intros [y ->]. exists y, []. rewrite app_nil_r; reflexivity.
Qed.

Lemma occurs_strip (m s : pystr) : occurs m (strip s) -> occurs m s.
Proof.
  intros H. destruct (strip_decompose s) as [ws1 [ws2 [_ [_ E]]]].
  rewrite E. apply occurs_in_part; exact H.
Qed.

(** ** The sanitizer *)

(** A fenced payload between spaces: the fences and the spaces go, the
    payload is trimmed. *)
Lemma sanitize_fenced (P ws1 ws2 : pystr) :
  forallb isspace ws1 = true -> forallb isspace ws2 = true ->
  sanitize (ws1 ++ fence_json ++ nl ++ P ++ nl ++ fence ++ ws2) = strip P.
Proof.
  intros H1 H2. unfold sanitize.
  replace (ws1 ++ fence_json ++ nl ++ P ++ nl ++ fence ++ ws2)
    with (ws1 ++ (fence_json ++ nl ++ P ++ nl ++ fence) ++ ws2)
    by (now rewrite <- !app_assoc).
  rewrite strip_spaces by assumption.
  assert (strip (fence_json ++ nl ++ P ++ nl ++ fence)
          = fence_json ++ nl ++ P ++ nl ++ fence) as ->.
  { unfold strip.
    assert (forall r, lstrip (fence_json ++ r) = fence_json ++ r) as ->
        by reflexivity.
    replace (fence_json ++ nl ++ P ++ nl ++ fence)
      with ((fence_json ++ nl ++ P ++ nl ++ lit "``") ++ [96%N])
      by (now rewrite <- !app_assoc).
    apply rstrip_last; reflexivity. }
  rewrite removeprefix_app.
  rewrite removeprefix_none by reflexivity.
  replace (nl ++ P ++ nl ++ fence) with ((nl ++ P ++ nl) ++ fence)
    by (now rewrite <- !app_assoc).
  rewrite removesuffix_app by discriminate.
  apply strip_spaces; reflexivity.
Qed.

Lemma startswith_fence_json (s : pystr) :
  startswith fence s = false -> startswith fence_json s = false.
Proof.
  intros H. destruct (startswith fence_json s) eqn:E; [|reflexivity].
  apply startswith_iff in E. destruct E as [r ->].
  rewrite <- H. symmetry. apply startswith_iff.
  exists (lit "json" ++ r). reflexivity.
Qed.

(** A text whose trimmed form has no fence at either end is only trimmed. *)
Lemma sanitize_unfenced (s : pystr) :
  startswith fence (strip s) = false -> endswith fence (strip s) = false ->
  sanitize s = strip s.
Proof.
  intros H1 H2. unfold sanitize.
  rewrite (removeprefix_none _ _ (startswith_fence_json _ H1)).
  rewrite (removeprefix_none _ _ H1), (removesuffix_none _ _ H2).
  apply strip_idem.
Qed.

Lemma no_fence_ends (s : pystr) :
  str_contains fence s = false ->
  startswith fence (strip s) = false /\ endswith fence (strip s) = false.
Proof.
  rewrite str_contains_false. intros H. split.
  - destruct (startswith fence (strip s)) eqn:E; [|reflexivity].
    exfalso; apply H, occurs_strip, startswith_occurs, E.
  - destruct (endswith fence (strip s)) eqn:E; [|reflexivity].
    exfalso; apply H, occurs_strip, endswith_occurs, E.
Qed.

(** C6, as the code has it: a payload whose trimmed text neither starts nor
    ends with the fence marker decodes the same whether it is given bare or
    wrapped in a json fence between spaces; a text without any fence marker
    is only trimmed, and sanitizing the result again changes nothing. *)
Theorem fence_is_transparent (rt : runtime) (agent_name : pystr) :
  (forall P ws1 ws2 : pystr,
      forallb isspace ws1 = true -> forallb isspace ws2 = true ->
      startswith fence (strip P) = false -> endswith fence (strip P) = false ->
      parse_json_output rt (ws1 ++ fence_json ++ nl ++ P ++ nl ++ fence ++ ws2) agent_name
      = parse_json_output rt P agent_name) /\
  (forall raw : pystr,
      str_contains fence raw = false ->
      sanitize raw = strip raw /\ sanitize (sanitize raw) = sanitize raw).
Proof.
  split.
  - intros P ws1 ws2 H1 H2 H3 H4. unfold parse_json_output.
    rewrite sanitize_fenced by assumption.
    rewrite (sanitize_unfenced _ H3 H4). reflexivity.
  - intros raw H.
    destruct (no_fence_ends _ H) as [H1 H2].
    assert (sanitize raw = strip raw) as E by (apply sanitize_unfenced; assumption).
    split; [exact E|]. rewrite E.
    assert (str_contains fence (strip raw) = false) as H'.
    { apply str_contains_false. intros O. apply occurs_strip in O.
      apply str_contains_false in H. exact (H O). }
    destruct (no_fence_ends _ H') as [K1 K2].
    rewrite (sanitize_unfenced _ K1 K2). apply strip_idem.
Qed.

Lemma fence_is_transparent_witness :
  parse_json_output Reference.rt
    (lit "  " ++ fence_json ++ nl ++ lit "{ }" ++ nl ++ fence ++ nl) (lit "Intake Agent")
  = parse_json_output Reference.rt (lit "{ }") (lit "Intake Agent")
  /\ sanitize (lit " [1] ") = strip (lit " [1] ").
Proof.
  destruct (fence_is_transparent Reference.rt (lit "Intake Agent")) as [H1 H2].
  split.
  - apply H1; reflexivity.
  - exact (proj1 (H2 (lit " [1] ") eq_refl)).
Defined.

(** C6 as stated fails for a payload that carries a fence of its own: given
    bare, its fence is removed and it decodes; wrapped once more, only the
    outer fence is removed and the decoder rejects what is left. *)
Lemma fenced_payload_wrapped_again :
  let P := fence_json ++ nl ++ lit "{}" ++ nl ++ fence in
  parse_json_output Reference.rt P (lit "Intake Agent") = Ret (PyDict []) /\
  parse_json_output Reference.rt (fence_json ++ nl ++ P ++ nl ++ fence) (lit "Intake Agent")
  = Fail (lit "Intake Agent returned output that could not be parsed as JSON." ++
          nl ++ nl ++ lit "Parse error: " ++ Reference.decode_error ++ nl ++ nl ++
          lit "Raw output:" ++ nl ++ P) /\
  parse_json_output Reference.rt (fence_json ++ nl ++ P ++ nl ++ fence) (lit "Intake Agent")
  <> parse_json_output Reference.rt P (lit "Intake Agent").
Proof.
  cbv zeta. split; [reflexivity|]. split; [reflexivity|].
  intros H. vm_compute in H. discriminate H.
Qed.

(** ** The Review validator *)

Lemma filter_absent_spec (content : pystr) (sections : list pystr) (m : pystr) :
  In m (filter (fun s => negb (str_contains s content)) sections)
  <-> In m sections /\ ~ occurs m content.
Proof.
  rewrite filter_In, negb_true_iff, str_contains_false. reflexivity.
Qed.

(** C8: the Review validator succeeds exactly when the four markers occur
    in the document; when it fails, the sections its message lists are
    exactly the markers that do not occur, each once, in the order of the
    four; a document that lacks only the Review Decision marker fails
    naming that section alone. *)
Theorem review_sections_checked (content : pystr) :
  (validate_review content = Ret tt
   <-> forall m, In m required_sections -> occurs m content) /\
  (exists missing : list pystr,
      validate_review content = review_failed missing /\
      NoDup missing /\
      (forall m, In m missing <-> In m required_sections /\ ~ occurs m content)) /\
  (occurs (lit "## Purpose") content -> occurs (lit "## In Scope") content ->
   occurs (lit "## Out of Scope") content ->
   ~ occurs (lit "## Review Decision") content ->
   validate_review content
   = Fail (lit "Review Agent output failed validation." ++ nl ++ nl ++
           lit "Missing sections: " ++ lit "## Review Decision")).
Proof.
  unfold validate_review.
  set (missing := filter (fun s => negb (str_contains s content)) required_sections).
  assert (forall m, In m missing <-> In m required_sections /\ ~ occurs m content) as S
      by (intros m; apply filter_absent_spec).
  split; [|split].
  - split.
    + intros H m Hm.
      destruct (str_contains m content) eqn:E; [apply str_contains_iff, E|].
      assert (In m missing) as K by (apply S; split; [exact Hm | apply str_contains_false, E]).
      destruct missing; [destruct K | discriminate H].
    + intros H. destruct missing as [|x l] eqn:E; [reflexivity|].
      exfalso. assert (In x (x :: l)) as K by (left; reflexivity).
      apply S in K. destruct K as [K1 K2]. exact (K2 (H x K1)).
  - exists missing. split; [reflexivity|]. split; [|exact S].
    apply NoDup_filter. unfold required_sections.
    repeat constructor; simpl; intuition discriminate.
  - intros H1 H2 H3 H4. subst missing. unfold required_sections. simpl.
    apply str_contains_iff in H1, H2, H3. apply str_contains_false in H4.
    rewrite H1, H2, H3, H4. reflexivity.
Qed.

Lemma review_sections_checked_witness :
  validate_review (lit "# Plan ## Purpose a ## In Scope b ## Out of Scope c")
  = Fail (lit "Review Agent output failed validation." ++ nl ++ nl ++
          lit "Missing sections: " ++ lit "## Review Decision").
Proof.
  apply (review_sections_checked (lit "# Plan ## Purpose a ## In Scope b ## Out of Scope c")).
  - apply str_contains_iff; reflexivity.
  - apply str_contains_iff; reflexivity.
  - apply str_contains_iff; reflexivity.
  - apply str_contains_false; reflexivity.
Defined.

(** ** Reasoning about [ctl] computations *)

Lemma bind_Ret_inv {A B : Type} (c : ctl A) (k : A -> ctl B) (b : B) :
  bind c k = Ret b -> exists a, c = Ret a /\ k a = Ret b.
Proof. destruct c; simpl; intros H; try discriminate. exists a; split; [reflexivity | exact H]. Qed.

(** Splits a hypothesis that a sequence of steps returned into its steps. *)
Ltac ctl_inv :=
  repeat match goal with
    | H : bind _ _ = Ret _ |- _ =>
        let a := fresh "a" in
        let E := fresh "E" in
        apply bind_Ret_inv in H; destruct H as [a [E H]]
    | H : (if ?b then _ else _) = Ret _ |- _ => destruct b eqn:?
    | H : Ret _ = Ret _ |- _ => injection H as H; try subst
    | H : Fail _ = Ret _ |- _ => discriminate H
    | H : Raise _ = Ret _ |- _ => discriminate H
    end.

Lemma for_each_appends (Q : pystr -> Prop) {A : Type}
    (body : A -> list pystr -> ctl (list pystr)) (xs : list A) :
  appends Q body -> appends Q (fun (_ : unit) acc => for_each xs body acc).
Proof.
  intros HB _. induction xs as [|x xs IH]; intros acc acc' H; simpl in H.
  - injection H as <-. exists []; split; [now rewrite app_nil_r | constructor].
  - ctl_inv. destruct (HB _ _ _ E) as [e1 [-> F1]].
    destruct (IH _ _ H) as [e2 [-> F2]].
    exists (e1 ++ e2). split; [now rewrite app_assoc | apply Forall_app; split; assumption].
Qed.

Lemma bind_no_fail {A B : Type} (c : ctl A) (k : A -> ctl B) :
  no_fail c -> (forall a, c = Ret a -> no_fail (k a)) -> no_fail (bind c k).
Proof.
  intros H K m. destruct c; simpl.
  - exact (K a eq_refl m).
  - exact (fun _ => H message eq_refl).
  - discriminate.
Qed.

Lemma for_each_no_fail {A S : Type} (body : A -> S -> ctl S) (xs : list A) :
  (forall x s, no_fail (body x s)) -> forall s, no_fail (for_each xs body s).
Proof.
  intros H. induction xs as [|x xs IH]; intros s; simpl.
  - discriminate.
  - apply bind_no_fail; [apply H | intros a _; apply IH].
Qed.

Lemma py_in_no_fail (key : pystr) (v : value) : no_fail (py_in key v).
Proof. intros m; destruct v; discriminate. Qed.

Lemma py_getitem_no_fail (v : value) (key : pystr) : no_fail (py_getitem v key).
Proof.
  intros m; destruct v; simpl; try discriminate.
  destruct (dict_lookup key members); discriminate.
Qed.

Lemma py_get_no_fail (v : value) (key : pystr) (d : value) : no_fail (py_get v key d).
Proof. intros m; destruct v; discriminate. Qed.

Lemma py_iter_no_fail (v : value) : no_fail (py_iter v).
Proof. intros m; destruct v; discriminate. Qed.

Lemma py_not_in_set_no_fail (v : value) (names : list pystr) :
  no_fail (py_not_in_set v names).
Proof. intros m; destruct v; discriminate. Qed.

Lemma Ret_no_fail {A : Type} (a : A) : no_fail (Ret a).
Proof. intros m; discriminate. Qed.

Ltac no_fail_steps :=
  repeat first
    [ apply Ret_no_fail
    | apply py_in_no_fail
    | apply py_getitem_no_fail
    | apply py_get_no_fail
    | apply py_iter_no_fail
    | apply py_not_in_set_no_fail
    | apply bind_no_fail; [|intros ? _]
    | apply for_each_no_fail; intros ? ?
    | match goal with |- no_fail (if ?b then _ else _) => destruct b end ].

Lemma ends_with_quote_app (a b : pystr) :
  (exists body, b = body ++ [39%N]) -> exists body, a ++ b = body ++ [39%N].
Proof. intros [x ->]. exists (a ++ x). now rewrite app_assoc. Qed.

Lemma ends_with_quote_cons (c : N) (b : pystr) :
  (exists body, b = body ++ [39%N]) -> exists body, c :: b = body ++ [39%N].
Proof. intros [x ->]. exists (c :: x). reflexivity. Qed.

(** ** The Risk validator *)

Ltac ends_with_quote_steps :=
  first [ exists []; reflexivity
        | apply ends_with_quote_app; ends_with_quote_steps
        | apply ends_with_quote_cons; ends_with_quote_steps ].

Ltac ends_with_quote_tac := unfold ends_with_quote; ends_with_quote_steps.

Section RiskValidator.

Variable rt : runtime.

Lemma check_enum_appends (tc tc_id : value) (name : pystr) (allowed : list pystr) :
  appends ends_with_quote (fun (_ : unit) acc => check_enum rt tc tc_id name allowed acc).
Proof.
  intros _ acc acc' H. unfold check_enum, py_not_in in H. ctl_inv.
  - eexists; split; [reflexivity|]. constructor; [|constructor].
    ends_with_quote_tac.
  - eexists; split; [reflexivity|]. constructor; [|constructor].
    ends_with_quote_tac.
  - exists []; split; [now rewrite app_nil_r | constructor].
Qed.

Lemma check_test_case_appends : appends ends_with_quote (check_test_case rt).
Proof.
  intros tc acc acc' H. unfold check_test_case in H. ctl_inv.
  destruct (check_enum_appends _ _ _ _ tt _ E0) as [e1 [-> F1]].
  destruct (check_enum_appends _ _ _ _ tt _ H) as [e2 [-> F2]].
  exists (e1 ++ e2). split; [now rewrite app_assoc | apply Forall_app; split; assumption].
Qed.

Lemma check_entry_appends : appends ends_with_quote (check_entry rt).
Proof.
  intros entry acc acc' H. unfold check_entry in H. ctl_inv.
  assert (appends ends_with_quote
            (fun (field : pystr) (errors : list pystr) =>
               absent <- py_not_in field entry ;;
               if absent
               then Ret (errors ++ [py_str rt a ++ lit ": missing field '" ++ field ++ lit "'"])
               else Ret errors)) as HF.
  { intros f e e' K. unfold py_not_in in K. ctl_inv.
    - eexists; split; [reflexivity|]. constructor; [|constructor].
      ends_with_quote_tac.
    - exists []; split; [now rewrite app_nil_r | constructor]. }
  destruct (for_each_appends _ HF tt _ E0) as [e1 [-> F1]].
  destruct (for_each_appends _ check_test_case_appends tt _ H) as [e2 [-> F2]].
  exists (e1 ++ e2). split; [now rewrite app_assoc | apply Forall_app; split; assumption].
Qed.

Lemma join_ends_with_quote (sep : pystr) (errors : list pystr) :
  errors <> [] -> Forall ends_with_quote errors -> ends_with_quote (join sep errors).
Proof.
  induction errors as [|e [|e' rest] IH]; intros N F; [congruence | |].
  - simpl. inversion F; assumption.
  - change (join sep (e :: e' :: rest)) with (e ++ sep ++ join sep (e' :: rest)).
    inversion F as [|? ? _ F']; subst.
    destruct IH as [b ->]; [discriminate | exact F' |].
    exists (e ++ sep ++ b). now rewrite <- !app_assoc.
Qed.

Lemma Fail_inj {A : Type} (a b : pystr) : @Fail A a = Fail b -> a = b.
Proof. intros H; injection H as H; exact H. Qed.

Lemma scan_message_ends_with_quote (header : pystr) (errors : list pystr) :
  errors <> [] -> Forall ends_with_quote errors ->
  header ++ nl ++ nl ++ join nl errors <> risk_not_array.
Proof.
  intros N F. destruct (join_ends_with_quote nl N F) as [b ->].
  assert (exists y, risk_not_array = y ++ [46%N]) as [y ->]
      by (eexists (removelast risk_not_array); reflexivity).
  rewrite !app_assoc. intros K. apply app_inj_tail in K.
  destruct K as [_ K]; discriminate K.
Qed.

(** What the validator does on a sequence: the violations its scan
    collected, reported at once. *)
Lemma validate_risk_list (entries : list value) :
  validate_risk rt (PyList entries) =
  (errors <- for_each entries (check_entry rt) [] ;;
   match errors with
   | [] => Ret tt
   | _ :: _ =>
       Fail (lit "Risk Agent output failed validation." ++ nl ++ nl ++ join nl errors)
   end).
Proof. reflexivity. Qed.

(** C4: a Risk payload that is not a sequence fails with the one message
    about the top-level shape, whatever it contains; that message is never
    the one a sequence fails with, whose violations all come from the scan
    of its entries. *)
Theorem risk_top_level_shape :
  (forall data : value,
      (forall entries, data <> PyList entries) ->
      validate_risk rt data = Fail risk_not_array) /\
  (forall (entries : list value) (message : pystr),
      validate_risk rt (PyList entries) = Fail message ->
      message <> risk_not_array /\
      exists errors,
        for_each entries (check_entry rt) [] = Ret errors /\ errors <> [] /\
        message = lit "Risk Agent output failed validation." ++ nl ++ nl ++ join nl errors).
Proof.
  split.
  - intros data H. destruct data; try reflexivity. exfalso; exact (H items eq_refl).
  - intros entries message H. rewrite validate_risk_list in H.
    destruct (for_each entries (check_entry rt) []) as [errors| |] eqn:E;
      cbn [bind] in H; [| | discriminate H].
    + destruct errors as [|e errors]; [discriminate H|].
      apply Fail_inj in H. subst message.
      split; [|exists (e :: errors); split; [reflexivity|split; [discriminate|reflexivity]]].
      destruct (for_each_appends _ check_entry_appends tt _ E) as [extra [X F]].
      simpl in X; subst extra.
      apply scan_message_ends_with_quote; [discriminate | exact F].
    + exfalso. clear -E.
      assert (forall acc m, for_each entries (check_entry rt) acc <> Fail m) as G.
      { intros acc. apply for_each_no_fail. intros x s.
        unfold check_entry, check_test_case, check_enum, py_not_in. no_fail_steps. }
      exact (G _ _ E).
Qed.

(** *** Payloads of the documented shape

    What each entry and each test case contributes to the violations, said
    the way the specification says it. *)

Lemma for_each_flat_map {A : Type} (P : A -> bool)
    (body : A -> list pystr -> ctl (list pystr)) (f : A -> list pystr) (xs : list A) :
  (forall x acc, P x = true -> body x acc = Ret (acc ++ f x)) ->
  forallb P xs = true ->
  forall acc, for_each xs body acc = Ret (acc ++ flat_map f xs).
Proof.
  intros HB. induction xs as [|x xs IH]; simpl; intros HP acc.
  - now rewrite app_nil_r.
  - apply andb_true_iff in HP. destruct HP as [Hx Hxs].
    rewrite (HB _ _ Hx). simpl. rewrite (IH Hxs). now rewrite app_assoc.
Qed.

Lemma py_not_in_set_scalar (v : value) (allowed : list pystr) :
  is_scalar v = true -> py_not_in_set v allowed = Ret (negb (in_enum v allowed)).
Proof. destruct v; simpl; intros H; try reflexivity; discriminate H. Qed.

Lemma check_enum_shaped (tc : list (pystr * value)) (tc_id : value) (name : pystr)
    (allowed errors : list pystr) :
  scalar_if_present name tc = true ->
  tc_id = get_or (lit "tc_id") tc (PyStr (lit "unknown")) ->
  check_enum rt (PyDict tc) tc_id name allowed errors
  = Ret (errors ++ (enum_violation rt) tc name allowed).
Proof.
  intros HS ->. unfold check_enum, enum_violation, py_not_in, scalar_if_present in *.
  cbn [py_in py_getitem bind]. unfold dict_has.
  destruct (dict_lookup name tc) as [given|]; cbn [negb bind]; [|reflexivity].
  rewrite (py_not_in_set_scalar _ allowed HS). cbn [bind].
  destruct (in_enum given allowed); cbn [negb bind]; [now rewrite app_nil_r | reflexivity].
Qed.

Lemma check_test_case_shaped (tc : value) (errors : list pystr) :
  tc_shaped tc = true ->
  check_test_case rt tc errors = Ret (errors ++ (tc_violations rt) tc).
Proof.
  destruct tc; try discriminate. cbn [tc_shaped tc_violations].
  rewrite andb_true_iff. intros [H1 H2]. unfold check_test_case.
  cbn [py_get bind].
  rewrite (@check_enum_shaped _ _ _ valid_types errors H1 eq_refl). cbn [bind].
  rewrite (@check_enum_shaped _ _ _ valid_surfaces _ H2 eq_refl). now rewrite app_assoc.
Qed.

Lemma check_entry_shaped (entry : value) (errors : list pystr) :
  entry_shaped entry = true ->
  check_entry rt entry errors = Ret (errors ++ (entry_violations rt) entry).
Proof.
  destruct entry; try discriminate. cbn [entry_shaped entry_violations].
  intros H. unfold check_entry. cbn [py_get bind].
  change [lit "req_id"; lit "risk"; lit "severity"; lit "severity_locked"; lit "test_cases"]
    with entry_fields.
  rewrite (for_each_flat_map (fun _ => true)
             (fun field acc =>
                absent <- py_not_in field (PyDict members) ;;
                if absent
                then Ret (acc ++ [py_str rt (get_or (lit "req_id") members
                                               (PyStr (lit "unknown"))) ++
                                  lit ": missing field '" ++ field ++ lit "'"])
                else Ret acc)
             (fun field =>
                if dict_has field members then []
                else [py_str rt (get_or (lit "req_id") members (PyStr (lit "unknown"))) ++
                      lit ": missing field '" ++ field ++ lit "'"])).
  - cbn [bind]. unfold get_or.
    destruct (dict_lookup (lit "test_cases") members) as [[| | | | |tcs|]|];
      try discriminate H; cbn [py_iter bind].
    + rewrite (for_each_flat_map tc_shaped _ (tc_violations rt));
        [now rewrite app_assoc | intros; now apply check_test_case_shaped | exact H].
    + cbn [for_each flat_map]. now rewrite !app_nil_r.
  - intros field acc _. unfold py_not_in. cbn [py_in bind]. unfold get_or.
    destruct (dict_has field members); cbn [negb]; [now rewrite app_nil_r | reflexivity].
  - clear. induction entry_fields; simpl; auto.
Qed.

Lemma validate_risk_shaped (entries : list value) :
  forallb entry_shaped entries = true ->
  validate_risk rt (PyList entries) = risk_verdict (flat_map (entry_violations rt) entries).
Proof.
  intros H. rewrite validate_risk_list.
  rewrite (for_each_flat_map entry_shaped _ (entry_violations rt));
    [reflexivity | intros; now apply check_entry_shaped | exact H].
Qed.

Lemma existsb_str_eqb (s : pystr) (names : list pystr) :
  existsb (str_eqb s) names = true <-> In s names.
Proof.
  rewrite existsb_exists. split.
  - intros [x [H E]]. apply str_eqb_eq in E. now subst.
  - intros H. exists s. split; [exact H | apply str_eqb_refl].
Qed.

(** X17: on a sequence of entries that are mappings, with test cases that
    are mappings whose [type] and [surface], when present, are neither
    sequences nor mappings, the validator reports what the entries and the
    test cases contribute, in order.  A test case whose [type] is present,
    is neither a sequence nor a mapping and is outside the enumeration (a
    string such as [bogus]) contributes for its type exactly one violation,
    which names the test case ([tc_id], or [unknown]) and the value; a test
    case whose [type] and [surface] are strings of their enumerations
    contributes nothing. *)
Theorem test_case_enumerations :
  (forall entries : list value,
      forallb entry_shaped entries = true ->
      validate_risk rt (PyList entries) = risk_verdict (flat_map (entry_violations rt) entries)) /\
  (forall (tc : list (pystr * value)) (given : value) (errors : list pystr),
      dict_lookup (lit "type") tc = Some given ->
      is_scalar given = true -> in_enum given valid_types = false ->
      check_enum rt (PyDict tc) (get_or (lit "tc_id") tc (PyStr (lit "unknown")))
        (lit "type") valid_types errors
      = Ret (errors ++ [tc_key rt tc ++ lit ": invalid type '" ++ py_str rt given ++ lit "'"])
      /\ enum_violation rt tc (lit "type") valid_types
         = [tc_key rt tc ++ lit ": invalid type '" ++ py_str rt given ++ lit "'"]) /\
  (forall (tc : list (pystr * value)) (type surface : pystr) (errors : list pystr),
      dict_lookup (lit "type") tc = Some (PyStr type) -> In type valid_types ->
      dict_lookup (lit "surface") tc = Some (PyStr surface) -> In surface valid_surfaces ->
      check_test_case rt (PyDict tc) errors = Ret errors
      /\ tc_violations rt (PyDict tc) = []).
Proof.
  split; [exact validate_risk_shaped | split].
  - intros tc given errors HT HS HE.
    assert (enum_violation rt tc (lit "type") valid_types
            = [tc_key rt tc ++ lit ": invalid type '" ++ py_str rt given ++ lit "'"]) as V.
    { unfold enum_violation. rewrite HT, HE. reflexivity. }
    split; [|exact V].
    rewrite check_enum_shaped; [now rewrite V | | reflexivity].
    unfold scalar_if_present. now rewrite HT.
  - intros tc type surface errors HT IT HS IS.
    assert (tc_violations rt (PyDict tc) = []) as V.
    { cbn [tc_violations]. unfold enum_violation. rewrite HT, HS. cbn [in_enum].
      apply existsb_str_eqb in IT, IS. now rewrite IT, IS. }
    split; [|exact V].
    rewrite check_test_case_shaped; [now rewrite V, app_nil_r|].
    cbn [tc_shaped]. unfold scalar_if_present. now rewrite HT, HS.
Qed.

(** C5 does not hold of the code: the validator tests [type] and [surface]
    by membership in a set, which hashes the value.  A test case whose
    [type] is the sequence [["bogus"]], a value outside the enumeration,
    does not contribute a violation: the test raises [TypeError] and the
    exception leaves the validator, where the string [bogus] in the same
    place is reported in the one violation [TC-1: invalid type 'bogus'].
    The same happens for a [surface] that is a mapping beside a [type] of
    the enumeration.  Run in a stage, nothing is written to the error
    channel. *)
Theorem unhashable_type_leaves_the_validator :
  validate_risk rt (PyList [risk_entry_with (PyList [PyStr (lit "bogus")]) (PyStr (lit "ui"))])
  = Raise TypeError /\
  validate_risk rt (PyList [risk_entry_with (PyStr (lit "bogus")) (PyStr (lit "ui"))])
  = Fail (lit "Risk Agent output failed validation." ++ nl ++ nl ++
          lit "TC-1: invalid type 'bogus'") /\
  validate_risk rt (PyList [risk_entry_with (PyStr (lit "unit")) (PyStr (lit "ui"))])
  = Ret tt /\
  validate_risk rt (PyList [risk_entry_with (PyStr (lit "unit")) (PyDict [])])
  = Raise TypeError /\
  (forall t,
      lift (validate_risk rt
              (PyList [risk_entry_with (PyList [PyStr (lit "bogus")]) (PyStr (lit "ui"))])) t
      = (t, Raise TypeError)).
Proof.
  repeat split; reflexivity.
Qed.

End RiskValidator.

(** ** The Intake validator *)

Section IntakeValidator.

Variable rt : runtime.

Lemma length_flat_map_absent (fields : list pystr) (members : list (pystr * value))
    (name : pystr -> pystr) :
  length (flat_map (fun field => if dict_has field members then [] else [name field]) fields)
  = count_absent fields members.
Proof.
  unfold count_absent. induction fields as [|f fields IH]; simpl; [reflexivity|].
  destruct (dict_has f members); simpl; rewrite IH; reflexivity.
Qed.

Lemma length_intake_missing (members : list (pystr * value)) :
  intake_shaped members = true ->
  length (intake_missing rt members) = count_missing members.
Proof.
  unfold intake_shaped, intake_missing, count_missing,
    missing_in_plan_context, missing_in_requirements.
  rewrite andb_true_iff, length_app. intros [H1 H2]. f_equal.
  - destruct (dict_lookup (lit "plan_context") members) as [[]|];
      try discriminate H1; try reflexivity.
    apply length_flat_map_absent.
  - destruct (dict_lookup (lit "requirements") members) as [[| | | | |reqs|]|];
      try discriminate H2; try reflexivity.
    clear. induction reqs as [|r reqs IH]; simpl; [reflexivity|].
    rewrite length_app, IH. f_equal.
    destruct r; try reflexivity. apply length_flat_map_absent.
Qed.

Lemma check_requirement_shaped (req : value) (missing : list pystr) :
  is_dict req = true ->
  for_each requirement_fields
    (fun field missing =>
       absent <- py_not_in field req ;;
       if absent then
         req_id <- py_get req (lit "req_id") (PyStr (lit "unknown")) ;;
         Ret (missing ++ [py_str rt req_id ++ lit "." ++ field])
       else Ret missing)
    missing
  = Ret (missing ++ (missing_in_requirement rt) req).
Proof.
  destruct req; try discriminate. intros _. cbn [missing_in_requirement].
  apply (for_each_flat_map (fun _ => true)).
  - intros field acc _. unfold py_not_in. cbn [py_in py_get bind].
    destruct (dict_has field members); cbn [negb bind]; [now rewrite app_nil_r | reflexivity].
  - clear. induction requirement_fields; simpl; auto.
Qed.

Lemma plan_context_shaped (plan_context : list (pystr * value)) (missing : list pystr) :
  for_each plan_fields
    (fun field missing =>
       absent <- py_not_in field (PyDict plan_context) ;;
       if absent then Ret (missing ++ [lit "plan_context." ++ field])
       else Ret missing)
    missing
  = Ret (missing ++
         flat_map (fun field =>
                     if dict_has field plan_context then []
                     else [lit "plan_context." ++ field])
           plan_fields).
Proof.
  apply (for_each_flat_map (fun _ => true)).
  - intros field acc _. unfold py_not_in. cbn [py_in bind].
    destruct (dict_has field plan_context); cbn [negb]; [now rewrite app_nil_r | reflexivity].
  - clear. induction plan_fields; simpl; auto.
Qed.

Lemma requirements_shaped (reqs : list value) (missing : list pystr) :
  forallb is_dict reqs = true ->
  for_each reqs
    (fun req missing =>
       for_each requirement_fields
         (fun field missing =>
            absent <- py_not_in field req ;;
            if absent then
              req_id <- py_get req (lit "req_id") (PyStr (lit "unknown")) ;;
              Ret (missing ++ [py_str rt req_id ++ lit "." ++ field])
            else Ret missing)
         missing)
    missing
  = Ret (missing ++ flat_map (missing_in_requirement rt) reqs).
Proof.
  intros H. apply (for_each_flat_map is_dict); [|exact H].
  intros req acc K. now apply check_requirement_shaped.
Qed.

Lemma validate_intake_shaped (members : list (pystr * value)) :
  intake_shaped members = true ->
  validate_intake rt (PyDict members) = intake_verdict (intake_missing rt members).
Proof.
  unfold intake_shaped, intake_missing, missing_in_plan_context, missing_in_requirements.
  rewrite andb_true_iff. intros [H1 H2].
  unfold validate_intake.
  change [lit "purpose"; lit "in_scope"; lit "out_of_scope"] with plan_fields.
  change [lit "req_id"; lit "prd_ref"; lit "ambiguity_flags"] with requirement_fields.
  unfold py_not_in at 1 3. cbn [py_in py_getitem bind]. unfold dict_has at 1 2.
  destruct (dict_lookup (lit "plan_context") members) as [pc|]; cbn [negb bind].
  - destruct pc; try discriminate H1. rewrite plan_context_shaped. cbn [bind app].
    destruct (dict_lookup (lit "requirements") members) as [[| | | | |reqs|]|];
      try discriminate H2; cbn [negb bind py_iter].
    + rewrite (requirements_shaped _ _ H2). reflexivity.
    + reflexivity.
  - destruct (dict_lookup (lit "requirements") members) as [[| | | | |reqs|]|];
      try discriminate H2; cbn [negb bind py_iter app].
    + rewrite (requirements_shaped _ _ H2). reflexivity.
    + reflexivity.
Qed.

(** X16: an Intake payload that is a mapping whose [plan_context], when
    present, is a mapping and whose [requirements], when present, is a
    sequence of mappings, and that misses N required fields, is answered by
    the verdict on the list of exactly those N missing-field identifiers,
    in the order of the scan: validation fails with that list in its
    message when N is not zero, and succeeds when N is zero. *)
Theorem intake_missing_fields_reported (members : list (pystr * value)) :
  intake_shaped members = true ->
  validate_intake rt (PyDict members) = intake_verdict (intake_missing rt members) /\
  length (intake_missing rt members) = count_missing members /\
  (count_missing members = 0 -> validate_intake rt (PyDict members) = Ret tt) /\
  (count_missing members <> 0 ->
   validate_intake rt (PyDict members)
   = Fail (lit "Intake Agent output failed validation." ++ nl ++ nl ++
           lit "Missing fields: " ++ join (lit ", ") (intake_missing rt members))).
Proof.
  intros H. pose proof (validate_intake_shaped _ H) as V.
  pose proof (length_intake_missing _ H) as L.
  split; [exact V | split; [exact L | split]].
  - intros Z. rewrite V. rewrite Z in L.
    destruct (intake_missing rt members); [reflexivity | discriminate L].
  - intros NZ. rewrite V.
    destruct (intake_missing rt members); [simpl in L; congruence | reflexivity].
Qed.

(** C3 does not hold of the code: the validator tests the required fields
    with [in] on whatever value it finds under [plan_context] and in
    [requirements].  On a text [in] is the substring test: a payload whose
    [plan_context] is the text [purpose in_scope out_of_scope], which has
    no field at all, passes, where the empty mapping in the same place is
    reported with its three missing fields; so does a payload with the
    requirement [req_id prd_ref ambiguity_flags], a text.  A requirement
    that is another text, or a [plan_context] that is a number, is not
    reported either: the scan raises and the exception leaves the
    validator.  Run in a stage, the first payload is accepted as valid. *)
Theorem intake_fields_tested_on_any_value :
  validate_intake rt
    (PyDict [(lit "plan_context", PyStr (lit "purpose in_scope out_of_scope"));
             (lit "requirements", PyList [])])
  = Ret tt /\
  validate_intake rt
    (PyDict [(lit "plan_context", PyDict []); (lit "requirements", PyList [])])
  = Fail (lit "Intake Agent output failed validation." ++ nl ++ nl ++
          lit "Missing fields: " ++
          lit "plan_context.purpose, plan_context.in_scope, plan_context.out_of_scope") /\
  validate_intake rt
    (PyDict [(lit "plan_context", Demo.plan_context_value);
             (lit "requirements", PyList [PyStr (lit "req_id prd_ref ambiguity_flags")])])
  = Ret tt /\
  validate_intake rt
    (PyDict [(lit "plan_context", Demo.plan_context_value);
             (lit "requirements", PyList [PyStr (lit "R1")])])
  = Raise AttributeError /\
  validate_intake rt
    (PyDict [(lit "plan_context", PyInt 5); (lit "requirements", PyList [])])
  = Raise TypeError /\
  (forall t,
      lift (validate_intake rt
              (PyDict [(lit "plan_context", PyStr (lit "purpose in_scope out_of_scope"));
                       (lit "requirements", PyList [])])) t
      = (t, Ret tt)).
Proof.
  repeat split; reflexivity.
Qed.

(** C2 does not hold of the code: on a payload whose parts have another
    shape than the validators expect, an operation of the scan raises and
    the exception leaves the validator: no violation list, no message.  The
    Risk validator on the sequence [[5]] ([.get] on an integer), also after an
    entry whose violations it had collected; the Intake validator on [5] and
    on a mapping whose [plan_context] is [5] ([in] on an integer).  Run in a
    stage, nothing is written to the error channel. *)
Theorem validators_raise_mid_scan :
  validate_risk rt (PyList [PyInt 5]) = Raise AttributeError /\
  (exists m, validate_risk rt (PyList [PyDict []]) = Fail m) /\
  validate_risk rt (PyList [PyDict []; PyInt 5]) = Raise AttributeError /\
  validate_intake rt (PyInt 5) = Raise TypeError /\
  validate_intake rt (PyDict [(lit "plan_context", PyInt 5)]) = Raise TypeError /\
  (forall t, lift (validate_risk rt (PyList [PyInt 5])) t = (t, Raise AttributeError)).
Proof.
  repeat split; try reflexivity. eexists; reflexivity.
Qed.

End IntakeValidator.

(** ** Runs *)

Lemma written_app (path : pystr) (t1 t2 : list event) (found : option pystr) :
  written path (t1 ++ t2) found = written path t2 (written path t1 found).
Proof.
  revert found; induction t1 as [|e t1 IH]; intros found; simpl; [reflexivity|].
  destruct e; apply IH.
Qed.

Lemma written_console (path : pystr) (out : list event) (found : option pystr) :
  forallb console out = true -> written path out found = found.
Proof.
  revert found; induction out as [|e out IH]; intros found; simpl; [reflexivity|].
  destruct e; simpl; try discriminate; apply IH.
Qed.

Lemma gateway_calls_app (t1 t2 : list event) :
  gateway_calls (t1 ++ t2) = gateway_calls t1 + gateway_calls t2.
Proof. unfold gateway_calls. now rewrite filter_app, length_app. Qed.

Lemma gateway_calls_console (out : list event) :
  forallb console out = true -> gateway_calls out = 0.
Proof.
  unfold gateway_calls. induction out as [|e out IH]; simpl; [reflexivity|].
  destruct e; simpl; try discriminate; exact IH.
Qed.

(** Runs the steps of a stage that do not depend on the world. *)
Ltac run_steps :=
  cbv beta iota zeta delta
    [rbind _header _step print print_err emit load_prompt read_file ret save_json
     save_text];
  rewrite <- ?app_assoc; cbn [app].

Lemma effects_app (t1 t2 : list event) : effects (t1 ++ t2) = effects t1 ++ effects t2.
Proof. apply filter_app. Qed.

(** Runs a stage through all the ways its steps can end. *)
Ltac run_cases :=
  repeat (cbv beta iota zeta delta
            [rbind _header _step print print_err emit load_prompt read_file ret
             save_json save_text lift call_model _fail];
          try match goal with
            | |- context [match ?x with _ => _ end] =>
                lazymatch x with
                | context [match _ with _ => _ end] => fail
                | _ => destruct x eqn:?
                end
            end).

Section Stages.

Variable rt : runtime.
Variable w : world.

(** Closes a case of a stage: what it returned and what it did outside
    the console. *)
Ltac stage_case :=
  rewrite <- ?app_assoc; cbn [app fst snd];
  do 3 eexists; split; [reflexivity|]; cbn [effects filter console negb];
  split;
  [ intros ? K; first [ discriminate K | injection K as <-; reflexivity ]
  | first [ left; reflexivity
          | right; left; reflexivity
          | right; right; eexists; reflexivity ] ].

(** A stage only appends to the trace; outside the console it calls the
    Gateway at most once and then writes its artifact at most once; when it
    returns, it has done both, and the artifact is what it returns. *)
Lemma intake_stage (prd_path output_path : pystr) (t : list event) :
  exists out system user,
    fst (run_intake_agent rt w prd_path output_path t) = t ++ out /\
    (forall v, snd (run_intake_agent rt w prd_path output_path t) = Ret v ->
               effects out = [GatewayCall system user;
                              WriteFile output_path (json_dumps rt true v)]) /\
    (effects out = [] \/ effects out = [GatewayCall system user] \/
     exists content, effects out = [GatewayCall system user; WriteFile output_path content]).
Proof.
  unfold run_intake_agent. run_cases.
  all: stage_case.
  Unshelve. all: exact [].
Qed.

Lemma risk_stage (intake_output : value) (output_path : pystr) (t : list event) :
  exists out system user,
    fst (run_risk_agent rt w intake_output output_path t) = t ++ out /\
    (forall v, snd (run_risk_agent rt w intake_output output_path t) = Ret v ->
               effects out = [GatewayCall system user;
                              WriteFile output_path (json_dumps rt true v)]) /\
    (effects out = [] \/ effects out = [GatewayCall system user] \/
     exists content, effects out = [GatewayCall system user; WriteFile output_path content]).
Proof.
  unfold run_risk_agent. run_cases.
  all: stage_case.
  Unshelve. all: exact [].
Qed.

Lemma review_stage (intake_output risk_output : value) (folder_name output_path : pystr)
    (t : list event) :
  exists out system user,
    fst (run_review_agent rt w intake_output risk_output folder_name output_path t)
    = t ++ out /\
    (snd (run_review_agent rt w intake_output risk_output folder_name output_path t)
     = Ret tt ->
     exists content, effects out = [GatewayCall system user; WriteFile output_path content]) /\
    (effects out = [] \/ effects out = [GatewayCall system user] \/
     exists content, effects out = [GatewayCall system user; WriteFile output_path content]).
Proof.
  unfold run_review_agent. run_cases.
  all: rewrite <- ?app_assoc; cbn [app fst snd].
  all: do 3 eexists; split; [reflexivity|]; cbn [effects filter console negb].
  all: split;
    [ intros K; first [ discriminate K | eexists; reflexivity ]
    | first [ left; reflexivity
            | right; left; reflexivity
            | right; right; eexists; reflexivity ] ].
  Unshelve. all: exact [].
Qed.

End Stages.

(** ** The runner *)

(** Normalises the trace in the goal and reads the files through the
    console output. *)
Ltac settle_trace :=
  rewrite <- ?app_assoc; cbn [app];
  rewrite ?written_app;
  repeat match goal with
    | |- context [written ?p ?t ?f] =>
        rewrite (written_console p t f) by reflexivity
    end.

Section Runner.

Variable rt : runtime.
Variable w : world.

Ltac order_case :=
  rewrite <- ?app_assoc; cbn [fst snd];
  rewrite ?effects_app;
  repeat match goal with
    | H : effects _ = _ |- _ => rewrite H; clear H
    end;
  cbn [effects filter console negb app];
  do 10 eexists; unfold full_order;
  (split; [reflexivity | intros K; first [discriminate K | reflexivity]]).

(** Whatever the world, a run does outside the console a beginning of:
    Intake call, Intake artifact, Risk call, Risk artifact, Review call,
    Review document; a run that completes does all of it. *)
Lemma pipeline_order :
  let arg := nth 1 (argv w) [] in
  exists s1 u1 c1 s2 u2 c2 s3 u3 c3 rest,
    effects (fst (pipeline rt w)) ++ rest = full_order rt arg s1 u1 c1 s2 u2 c2 s3 u3 c3 /\
    (snd (pipeline rt w) = Ret tt -> rest = []).
Proof.
  unfold pipeline, main.
  destruct (argv w) as [|prog [|arg [|x l]]]; cbn [nth];
    try (cbv beta iota zeta delta [rbind print_err print emit]; order_case).
  cbv beta iota zeta delta [rbind print emit get_openai_client _fail ret].
  destruct (api_key w) as [[|c k]|]; try order_case.
  cbn [app].
  match goal with
  | |- context [run_intake_agent rt w ?p ?o ?t0] =>
      destruct (intake_stage rt w p o t0) as (out1 & s1 & u1 & F1 & R1 & C1);
      destruct (run_intake_agent rt w p o t0) as [t1 [v1| |]]
  end; cbn [fst snd] in *; subst t1;
    try (destruct C1 as [C1|[C1|[c1 C1]]]; order_case).
  specialize (R1 v1 eq_refl). clear C1.
  match goal with
  | |- context [run_risk_agent rt w ?i ?o ?t0] =>
      destruct (risk_stage rt w i o t0) as (out2 & s2 & u2 & F2 & R2 & C2);
      destruct (run_risk_agent rt w i o t0) as [t2 [v2| |]]
  end; cbn [fst snd] in *; subst t2;
    try (destruct C2 as [C2|[C2|[c2 C2]]]; order_case).
  specialize (R2 v2 eq_refl). clear C2.
  match goal with
  | |- context [run_review_agent rt w ?i ?r ?f ?o ?t0] =>
      destruct (review_stage rt w i r f o t0) as (out3 & s3 & u3 & F3 & R3 & C3);
      destruct (run_review_agent rt w i r f o t0) as [t3 [[]| |]]
  end; cbn [fst snd] in *; subst t3;
    try (clear R3; destruct C3 as [C3|[C3|[c3 C3]]]; order_case).
  destruct (R3 eq_refl) as [c3 R3']. clear R3 C3.
  cbv beta iota zeta delta [print emit]. order_case.
  Unshelve. all: exact [].
Qed.

(** An Intake output without the [requirements] key (a mapping without it,
    or a value in which the key cannot be found at all) never passes the
    Intake validator. *)
Lemma validate_intake_needs_requirements (data : value) :
  py_in (lit "requirements") data <> Ret true ->
  forall u, validate_intake rt data <> Ret u.
Proof.
  intros H u K. unfold validate_intake in K.
  apply bind_Ret_inv in K. destruct K as [missing [_ K]].
  apply bind_Ret_inv in K. destruct K as [missing' [K1 K2]].
  unfold py_not_in at 1 in K1.
  destruct (py_in (lit "requirements") data) as [[|]| |]; cbn [negb bind] in K1;
    try discriminate K1; [congruence|].
  injection K1 as <-. destruct missing; discriminate K2.
Qed.

Lemma intake_halts_without_requirements
    (prog arg key system prd : pystr) (reply : option pystr) (output : value) :
  argv w = [prog; arg] ->
  api_key w = Some key -> key <> [] ->
  files w (Path rt (lit "prompts/intake_prompt.md")) = Some system ->
  files w (Path rt arg) = Some prd ->
  gateway w 0 system (intake_user_message prd) = inr reply ->
  json_loads rt (sanitize (reply_text reply)) = Decoded output ->
  py_in (lit "requirements") output <> Ret true ->
  (forall u, snd (pipeline rt w) <> Ret u) /\
  effects (fst (pipeline rt w)) = [GatewayCall system (intake_user_message prd)].
Proof.
  intros Hargv Hkey Hne Hsys Hprd Hgw Hloads Hreq.
  pose proof (validate_intake_needs_requirements _ Hreq) as V.
  unfold pipeline, main. rewrite Hargv.
  cbv beta iota zeta delta [rbind print emit get_openai_client ret].
  rewrite Hkey. destruct key as [|c k]; [congruence|].
  unfold run_intake_agent.
  cbv beta iota zeta delta [rbind _header _step print emit load_prompt read_file ret].
  settle_trace. cbn [written]. rewrite Hsys.
  settle_trace. cbn [written]. rewrite Hprd.
  unfold call_model. rewrite gateway_calls_console by reflexivity.
  fold (intake_user_message prd). rewrite Hgw.
  assert (parse_json_output rt (reply_text reply) (lit "Intake Agent") = Ret output)
    as P by (unfold parse_json_output; rewrite Hloads; reflexivity).
  destruct reply as [content|]; cbn [reply_text] in P; rewrite P;
    cbv beta iota zeta delta [lift ret _fail];
    (destruct (validate_intake rt output) as [[]| |];
     [exfalso; exact (V tt eq_refl) | |]);
    cbn [fst snd]; (split; [discriminate|]);
    rewrite <- ?app_assoc; reflexivity.
Qed.

End Runner.

(** ** The dash repaired in the Review text *)

Lemma repaired_head (s : pystr) (x : N) (rest : pystr) :
  replace_from mojibake_dash em_dash 0 s = x :: rest -> x <> 8212%N ->
  exists s', s = x :: s' /\ rest = replace_from mojibake_dash em_dash 0 s'.
Proof.
  destruct s as [|c s']; [discriminate|].
  cbn [replace_from]. destruct (startswith mojibake_dash (c :: s')).
  - cbn. intros H N. injection H as H _. congruence.
  - intros H _. injection H as -> <-. exists s'. split; reflexivity.
Qed.

Lemma repaired_start (c : N) (s : pystr) :
  startswith mojibake_dash (c :: replace_from mojibake_dash em_dash 0 s) = true ->
  startswith mojibake_dash (c :: s) = true.
Proof.
  rewrite !startswith_iff. intros [r H]. cbn in H. injection H as -> H.
  apply repaired_head in H; [|discriminate]. destruct H as [s1 [-> H]].
  symmetry in H. apply repaired_head in H; [|discriminate]. destruct H as [s2 [-> _]].
  exists s2. reflexivity.
Qed.

(** No mis-decoded dash is left after the replacement. *)
Lemma replace_leaves_no_mojibake (s : pystr) :
  str_contains mojibake_dash (replace mojibake_dash em_dash s) = false.
Proof.
  change (replace mojibake_dash em_dash s) with (replace_from mojibake_dash em_dash 0 s).
  generalize 0 at 1. induction s as [|c s IH]; intros k; [reflexivity|].
  cbn [replace_from]. destruct k as [|k]; [|apply IH].
  destruct (startswith mojibake_dash (c :: s)) eqn:E.
  - change (em_dash ++ ?x) with (8212%N :: x).
    cbn [str_contains]. rewrite IH. reflexivity.
  - cbn [str_contains]. rewrite IH, orb_false_r.
    destruct (startswith mojibake_dash (c :: replace_from mojibake_dash em_dash 0 s)) eqn:F;
      [|reflexivity].
    apply repaired_start in F. congruence.
Qed.

Lemma review_output_clean (raw : pystr) :
  str_contains mojibake_dash (review_output raw) = false.
Proof.
  unfold review_output. apply str_contains_false. intros O.
  apply occurs_strip, str_contains_iff in O.
  rewrite replace_leaves_no_mojibake in O. discriminate O.
Qed.

Lemma join_cons_more (sep p : pystr) (rest : list pystr) :
  rest <> [] -> join sep (p :: rest) = p ++ sep ++ join sep rest.
Proof. destruct rest; [congruence | reflexivity]. Qed.

Lemma join_cons_head (sep : pystr) (c : N) (g : pystr) (gs : list pystr) :
  join sep ((c :: g) :: gs) = c :: join sep (g :: gs).
Proof. destruct gs; reflexivity. Qed.

Lemma join_starts_with_head (sep g : pystr) (gs : list pystr) :
  exists tail, join sep (g :: gs) = g ++ tail.
Proof.
  destruct gs as [|g' gs].
  - exists []. cbn. now rewrite app_nil_r.
  - eexists. reflexivity.
Qed.

Lemma replace_at_mojibake (r : pystr) :
  replace_from mojibake_dash em_dash 0 (mojibake_dash ++ r)
  = em_dash ++ replace_from mojibake_dash em_dash 0 r.
Proof. reflexivity. Qed.

Lemma replace_by_segments_bounded (n : nat) (s : pystr) :
  length s <= n ->
  exists segments,
    segments <> [] /\ Forall no_mojibake segments /\
    s = join mojibake_dash segments /\
    replace_from mojibake_dash em_dash 0 s = join em_dash segments.
Proof.
  revert s. induction n as [|n IH]; intros s L.
  - destruct s; [|simpl in L; lia].
    exists [[]]. repeat split; [discriminate | repeat constructor].
  - destruct s as [|c s'].
    { exists [[]]. repeat split; [discriminate | repeat constructor]. }
    destruct (startswith mojibake_dash (c :: s')) eqn:E.
    + apply startswith_iff in E. destruct E as [r E]. rewrite E.
      assert (length r <= n) as Lr.
      { apply (f_equal (@length N)) in E. rewrite length_app in E.
        simpl in E, L. lia. }
      destruct (IH r Lr) as [segments [NE [F [J R]]]].
      exists ([] :: segments). split; [discriminate|]. split; [|split].
      * constructor; [reflexivity | exact F].
      * rewrite (join_cons_more _ _ NE). cbn [app]. now rewrite <- J.
      * rewrite replace_at_mojibake, R, (join_cons_more _ _ NE). reflexivity.
    + assert (length s' <= n) as Ls by (simpl in L; lia).
      destruct (IH s' Ls) as [segments [NE [F [J R]]]].
      destruct segments as [|g gs]; [congruence|].
      exists ((c :: g) :: gs). split; [discriminate|]. split; [|split].
      * apply Forall_cons_iff in F. destruct F as [Fg Fgs]. constructor; [|exact Fgs].
        unfold no_mojibake in *. cbn [str_contains]. rewrite Fg, orb_false_r.
        destruct (startswith mojibake_dash (c :: g)) eqn:G; [|reflexivity].
        exfalso. apply startswith_iff in G. destruct G as [x G].
        destruct (join_starts_with_head mojibake_dash g gs) as [tail T].
        assert (startswith mojibake_dash (c :: s') = true) as K.
        { apply startswith_iff. exists (x ++ tail).
          rewrite J, T, app_comm_cons, G. now rewrite app_assoc. }
        congruence.
      * rewrite join_cons_head. now rewrite <- J.
      * cbn [replace_from]. rewrite E, R, join_cons_head. reflexivity.
Qed.

(** What the replacement does: the text is cut at the occurrences of the
    mis-decoded dash, and an em dash is put at each cut. *)
Lemma replace_by_segments (s : pystr) :
  exists segments,
    Forall no_mojibake segments /\
    s = join mojibake_dash segments /\
    replace mojibake_dash em_dash s = join em_dash segments.
Proof.
  destruct (replace_by_segments_bounded (n := length s) s (le_n _))
    as [segments [_ [F [J R]]]].
  exists segments. repeat split; assumption.
Qed.

(** ** The claims about runs *)

Section Claims.

Variable rt : runtime.
Variable w : world.

Lemma intake_prompt_missing (prog arg key : pystr) :
  argv w = [prog; arg] -> api_key w = Some key -> key <> [] ->
  files w (Path rt (lit "prompts/intake_prompt.md")) = None ->
  snd (pipeline rt w) = Fail (prompt_not_found rt (lit "prompts/intake_prompt.md")) /\
  effects (fst (pipeline rt w)) = [].
Proof.
  intros Hargv Hkey Hne Hsys.
  unfold pipeline, main. rewrite Hargv.
  cbv beta iota zeta delta [rbind print emit get_openai_client ret].
  rewrite Hkey. destruct key as [|c k]; [congruence|].
  unfold run_intake_agent.
  cbv beta iota zeta delta [rbind _header _step print emit load_prompt read_file ret].
  settle_trace. cbn [written]. rewrite Hsys.
  unfold _fail. cbn [fst snd]. split; reflexivity.
Qed.

Lemma risk_prompt_missing (intake_output : value) (output_path : pystr) (t : list event) :
  written (Path rt (lit "prompts/risk_prompt.md")) t
    (files w (Path rt (lit "prompts/risk_prompt.md"))) = None ->
  exists out,
    run_risk_agent rt w intake_output output_path t
    = (t ++ out, Fail (prompt_not_found rt (lit "prompts/risk_prompt.md")))
    /\ forallb console out = true.
Proof.
  intros H. unfold run_risk_agent. run_steps.
  rewrite written_app, written_console by reflexivity. rewrite H.
  unfold _fail. rewrite <- ?app_assoc; cbn [app].
  eexists; split; reflexivity.
Qed.

Lemma review_prompt_missing (intake_output risk_output : value)
    (folder_name output_path : pystr) (t : list event) :
  written (Path rt (lit "prompts/review_prompt.md")) t
    (files w (Path rt (lit "prompts/review_prompt.md"))) = None ->
  exists out,
    run_review_agent rt w intake_output risk_output folder_name output_path t
    = (t ++ out, Fail (prompt_not_found rt (lit "prompts/review_prompt.md")))
    /\ forallb console out = true.
Proof.
  intros H. unfold run_review_agent. run_steps.
  rewrite written_app, written_console by reflexivity. rewrite H.
  unfold _fail. rewrite <- ?app_assoc; cbn [app].
  eexists; split; reflexivity.
Qed.

Lemma written_effects (path : pystr) (t : list event) (found : option pystr) :
  written path t found = written path (effects t) found.
Proof.
  revert found. induction t as [|e t IH]; intros found; [reflexivity|].
  destruct e; cbn [written effects filter console negb]; apply IH.
Qed.

Lemma effects_console (out : list event) :
  forallb console out = true -> effects out = [].
Proof.
  induction out as [|e out IH]; [reflexivity|].
  cbn [forallb effects filter]. destruct (console e); [|discriminate].
  cbn [negb andb]. exact IH.
Qed.

(** The run with the Risk template missing. *)
Lemma risk_template_missing_run (prog arg key : pystr) :
  argv w = [prog; arg] -> api_key w = Some key -> key <> [] ->
  files w (Path rt (lit "prompts/risk_prompt.md")) = None ->
  str_eqb (intake_output_path rt arg) (Path rt (lit "prompts/risk_prompt.md")) = false ->
  (forall u, snd (pipeline rt w) <> Ret u) /\
  (forall t1 v,
      intake_of_run rt w arg = (t1, Ret v) ->
      snd (pipeline rt w) = Fail (prompt_not_found rt (lit "prompts/risk_prompt.md")) /\
      exists system user,
        effects (fst (pipeline rt w))
        = [GatewayCall system user;
           WriteFile (intake_output_path rt arg) (json_dumps rt true v)]) /\
  (forall t1 m, intake_of_run rt w arg = (t1, Fail m) -> pipeline rt w = (t1, Fail m)) /\
  (forall t1 e, intake_of_run rt w arg = (t1, Raise e) -> pipeline rt w = (t1, Raise e)).
Proof.
  intros Hargv Hkey Hne Hfile Hpath.
  unfold pipeline, main. rewrite Hargv.
  cbv beta iota zeta delta [rbind print emit get_openai_client ret].
  rewrite Hkey. destruct key as [|c k]; [congruence|]. cbn [app].
  match goal with
  | |- context [run_intake_agent rt w ?p ?o ?t0] =>
      change (run_intake_agent rt w p o t0) with (intake_of_run rt w arg)
  end.
  destruct (intake_stage rt w (Path rt arg) (intake_output_path rt arg) (started rt arg))
    as (out1 & s1 & u1 & F1 & R1 & _).
  change (run_intake_agent rt w (Path rt arg) (intake_output_path rt arg) (started rt arg))
    with (intake_of_run rt w arg) in F1, R1.
  destruct (intake_of_run rt w arg) as [t1 [v| |]]; cbn [fst snd] in *; subst t1.
  - specialize (R1 v eq_refl).
    match goal with
    | |- context [run_risk_agent rt w v ?o ?t] =>
        destruct (risk_prompt_missing v o t) as [out2 [E2 C2]];
        [ rewrite written_effects, effects_app, R1;
          change (effects (started rt arg)) with (@nil event);
          cbn [app written]; rewrite Hpath; exact Hfile
        | rewrite E2 ]
    end.
    split; [discriminate|]. split; [|split; intros; discriminate].
    intros t1 v' K. injection K as _ <-. cbn [fst snd]. split; [reflexivity|].
    exists s1, u1. rewrite !effects_app, R1, (effects_console _ C2). reflexivity.
  - split; [discriminate|]. split; [intros; discriminate|].
    split; [|intros; discriminate]. intros t1 m K. injection K as <- <-. reflexivity.
  - split; [discriminate|]. split; [intros; discriminate|].
    split; [intros; discriminate|]. intros t1 x K. injection K as <- <-. reflexivity.
Qed.

(** The run with the Review template missing. *)
Lemma review_template_missing_run (prog arg key : pystr) :
  argv w = [prog; arg] -> api_key w = Some key -> key <> [] ->
  files w (Path rt (lit "prompts/review_prompt.md")) = None ->
  str_eqb (intake_output_path rt arg) (Path rt (lit "prompts/review_prompt.md")) = false ->
  str_eqb (risk_output_path rt arg) (Path rt (lit "prompts/review_prompt.md")) = false ->
  (forall u, snd (pipeline rt w) <> Ret u) /\
  (forall t1 v1 t2 v2,
      intake_of_run rt w arg = (t1, Ret v1) ->
      risk_of_run rt w arg v1 t1 = (t2, Ret v2) ->
      snd (pipeline rt w) = Fail (prompt_not_found rt (lit "prompts/review_prompt.md")) /\
      exists s1 u1 s2 u2,
        effects (fst (pipeline rt w))
        = [GatewayCall s1 u1;
           WriteFile (intake_output_path rt arg) (json_dumps rt true v1);
           GatewayCall s2 u2;
           WriteFile (risk_output_path rt arg) (json_dumps rt true v2)]) /\
  (forall t1 m, intake_of_run rt w arg = (t1, Fail m) -> pipeline rt w = (t1, Fail m)) /\
  (forall t1 v1 t2 m,
      intake_of_run rt w arg = (t1, Ret v1) ->
      risk_of_run rt w arg v1 t1 = (t2, Fail m) -> pipeline rt w = (t2, Fail m)).
Proof.
  intros Hargv Hkey Hne Hfile Hpath1 Hpath2.
  unfold pipeline, main. rewrite Hargv.
  cbv beta iota zeta delta [rbind print emit get_openai_client ret].
  rewrite Hkey. destruct key as [|c k]; [congruence|]. cbn [app].
  match goal with
  | |- context [run_intake_agent rt w ?p ?o ?t0] =>
      change (run_intake_agent rt w p o t0) with (intake_of_run rt w arg)
  end.
  destruct (intake_stage rt w (Path rt arg) (intake_output_path rt arg) (started rt arg))
    as (out1 & s1 & u1 & F1 & R1 & _).
  change (run_intake_agent rt w (Path rt arg) (intake_output_path rt arg) (started rt arg))
    with (intake_of_run rt w arg) in F1, R1.
  destruct (intake_of_run rt w arg) as [t1 [v1| |]]; cbn [fst snd] in *; subst t1.
  2:{ split; [discriminate|]. split; [intros; discriminate|].
      split; [|intros; discriminate]. intros t1 m K. injection K as <- <-. reflexivity. }
  2:{ split; [discriminate|]. repeat split; intros; discriminate. }
  specialize (R1 v1 eq_refl).
  match goal with
  | |- context [run_risk_agent rt w v1 ?o ?t] =>
      change (run_risk_agent rt w v1 o t) with (risk_of_run rt w arg v1 t)
  end.
  destruct (risk_stage rt w v1 (risk_output_path rt arg) (started rt arg ++ out1))
    as (out2 & s2 & u2 & F2 & R2 & _).
  change (run_risk_agent rt w v1 (risk_output_path rt arg) (started rt arg ++ out1))
    with (risk_of_run rt w arg v1 (started rt arg ++ out1)) in F2, R2.
  destruct (risk_of_run rt w arg v1 (started rt arg ++ out1)) as [t2 [v2| |]] eqn:ER;
    cbn [fst snd] in *; subst t2.
  2:{ split; [discriminate|]. split; [|split; [intros; discriminate|]].
      - intros t1 v1' t2 v2 K1 K2. injection K1 as <- <-. discriminate (eq_trans (eq_sym ER) K2).
      - intros t1 v1' t2 m0 K1 K2. injection K1 as <- <-. pose proof (eq_trans (eq_sym ER) K2) as K3.
        injection K3 as <- <-. reflexivity. }
  2:{ split; [discriminate|]. split; [|split; [intros; discriminate|]].
      - intros t1 v1' t2 v2 K1 K2. injection K1 as <- <-. discriminate (eq_trans (eq_sym ER) K2).
      - intros t1 v1' t2 m0 K1 K2. injection K1 as <- <-. discriminate (eq_trans (eq_sym ER) K2). }
  specialize (R2 v2 eq_refl).
  match goal with
  | |- context [run_review_agent rt w ?i ?r ?f ?o ?t] =>
      destruct (review_prompt_missing i r f o t) as [out3 [E3 C3]];
      [ rewrite written_effects, !effects_app, R1, R2;
        change (effects (started rt arg)) with (@nil event);
        cbn [app written]; rewrite Hpath1, Hpath2; exact Hfile
      | rewrite E3 ]
  end.
  split; [discriminate|]. split; [|split; intros; try discriminate].
  - intros t1 v1' t2 v2' K1 K2. injection K1 as <- <-. pose proof (eq_trans (eq_sym ER) K2) as K3.
    injection K3 as _ <-. cbn [fst snd]. split; [reflexivity|].
    exists s1, u1, s2, u2. rewrite !effects_app, R1, R2, (effects_console _ C3).
    reflexivity.
  - match goal with
    | K1 : (_, Ret v1) = (_, Ret _), K2 : risk_of_run _ _ _ _ _ = (_, Fail _) |- _ =>
        injection K1 as <- <-; discriminate (eq_trans (eq_sym ER) K2)
    end.
Qed.

(** C1, as the code has it: a stage loads its instruction template when it
    starts.  In a run with its argument and its credential:
    - with the Intake template absent, the run ends with the message that
      the prompt file was not found, before any Gateway call and any
      artifact;
    - with the Risk template absent, the run never completes; when the
      Intake stage returns, the run ends with the message that the Risk
      prompt file was not found, and outside the console it has made the
      Intake call and written the Intake artifact, nothing else; when the
      Intake stage fails or raises, the run ends there, as that stage does;
    - with the Review template absent, the run never completes; when the
      Intake and Risk stages return, the run ends with the message that the
      Review prompt file was not found, and outside the console it has made
      the two calls and written the two artifacts, nothing else; when one
      of the two stages fails, the run ends there, as that stage does.
    A template is absent when no file is at its path and the artifacts of
    the earlier stages are written to other paths.  Stage by stage: a Risk
    or Review stage started on any trace that leaves its template absent
    adds console output only and ends with that message. *)
Theorem missing_template_stops_its_stage :
  (forall prog arg key : pystr,
      argv w = [prog; arg] -> api_key w = Some key -> key <> [] ->
      files w (Path rt (lit "prompts/intake_prompt.md")) = None ->
      snd (pipeline rt w) = Fail (prompt_not_found rt (lit "prompts/intake_prompt.md")) /\
      effects (fst (pipeline rt w)) = []) /\
  (forall prog arg key : pystr,
      argv w = [prog; arg] -> api_key w = Some key -> key <> [] ->
      files w (Path rt (lit "prompts/risk_prompt.md")) = None ->
      str_eqb (intake_output_path rt arg) (Path rt (lit "prompts/risk_prompt.md")) = false ->
      (forall u, snd (pipeline rt w) <> Ret u) /\
      (forall t1 v,
          intake_of_run rt w arg = (t1, Ret v) ->
          snd (pipeline rt w) = Fail (prompt_not_found rt (lit "prompts/risk_prompt.md")) /\
          exists system user,
            effects (fst (pipeline rt w))
            = [GatewayCall system user;
               WriteFile (intake_output_path rt arg) (json_dumps rt true v)]) /\
      (forall t1 m, intake_of_run rt w arg = (t1, Fail m) -> pipeline rt w = (t1, Fail m)) /\
      (forall t1 e, intake_of_run rt w arg = (t1, Raise e) -> pipeline rt w = (t1, Raise e))) /\
  (forall prog arg key : pystr,
      argv w = [prog; arg] -> api_key w = Some key -> key <> [] ->
      files w (Path rt (lit "prompts/review_prompt.md")) = None ->
      str_eqb (intake_output_path rt arg) (Path rt (lit "prompts/review_prompt.md")) = false ->
      str_eqb (risk_output_path rt arg) (Path rt (lit "prompts/review_prompt.md")) = false ->
      (forall u, snd (pipeline rt w) <> Ret u) /\
      (forall t1 v1 t2 v2,
          intake_of_run rt w arg = (t1, Ret v1) ->
          risk_of_run rt w arg v1 t1 = (t2, Ret v2) ->
          snd (pipeline rt w) = Fail (prompt_not_found rt (lit "prompts/review_prompt.md")) /\
          exists s1 u1 s2 u2,
            effects (fst (pipeline rt w))
            = [GatewayCall s1 u1;
               WriteFile (intake_output_path rt arg) (json_dumps rt true v1);
               GatewayCall s2 u2;
               WriteFile (risk_output_path rt arg) (json_dumps rt true v2)]) /\
      (forall t1 m, intake_of_run rt w arg = (t1, Fail m) -> pipeline rt w = (t1, Fail m)) /\
      (forall t1 v1 t2 m,
          intake_of_run rt w arg = (t1, Ret v1) ->
          risk_of_run rt w arg v1 t1 = (t2, Fail m) -> pipeline rt w = (t2, Fail m))) /\
  (forall (intake_output : value) (output_path : pystr) (t : list event),
      written (Path rt (lit "prompts/risk_prompt.md")) t
        (files w (Path rt (lit "prompts/risk_prompt.md"))) = None ->
      exists out,
        run_risk_agent rt w intake_output output_path t
        = (t ++ out, Fail (prompt_not_found rt (lit "prompts/risk_prompt.md")))
        /\ forallb console out = true) /\
  (forall (intake_output risk_output : value) (folder_name output_path : pystr)
          (t : list event),
      written (Path rt (lit "prompts/review_prompt.md")) t
        (files w (Path rt (lit "prompts/review_prompt.md"))) = None ->
      exists out,
        run_review_agent rt w intake_output risk_output folder_name output_path t
        = (t ++ out, Fail (prompt_not_found rt (lit "prompts/review_prompt.md")))
        /\ forallb console out = true).
Proof.
  split; [exact intake_prompt_missing|].
  split; [exact risk_template_missing_run|].
  split; [exact review_template_missing_run|]. split.
  - intros. now apply risk_prompt_missing.
  - intros. now apply review_prompt_missing.
Qed.


(** C9: the Risk stage reads its Intake input through the two keys
    [requirements] and [project_context] only.  Two Intake outputs with the
    same values under these keys (the same absence for one without) make
    the stage do the same, Gateway input included, whatever their
    [plan_context]; the user message is built from the two values; an
    absent [project_context] is written [null]. *)
Theorem risk_input_ignores_plan_context :
  (forall (m1 m2 : list (pystr * value)) (output_path : pystr) (t : list event),
      dict_lookup (lit "requirements") m1 = dict_lookup (lit "requirements") m2 ->
      dict_lookup (lit "project_context") m1 = dict_lookup (lit "project_context") m2 ->
      run_risk_agent rt w (PyDict m1) output_path t
      = run_risk_agent rt w (PyDict m2) output_path t) /\
  (forall (m : list (pystr * value)) (output_path : pystr) (t : list event)
          (system : pystr),
      written (Path rt (lit "prompts/risk_prompt.md")) t
        (files w (Path rt (lit "prompts/risk_prompt.md"))) = Some system ->
      exists rest,
        effects (fst (run_risk_agent rt w (PyDict m) output_path t))
        = effects t ++
          GatewayCall system
            (risk_user_message rt (get_or (lit "project_context") m PyNone)
               (get_or (lit "requirements") m (PyList []))) :: rest) /\
  (forall (m : list (pystr * value)) (requirements : value),
      dict_lookup (lit "project_context") m = None ->
      risk_user_message rt (get_or (lit "project_context") m PyNone) requirements
      = lit "Here are the inputs to process:" ++ nl ++ nl ++
        lit "PROJECT CONTEXT:" ++ nl ++ lit "null" ++ nl ++ nl ++
        lit "REQUIREMENTS:" ++ nl ++ json_dumps rt true requirements).
Proof.
  split; [|split].
  - intros m1 m2 output_path t H1 H2. unfold run_risk_agent.
    cbn [py_get]. unfold get_or. rewrite H1, H2. reflexivity.
  - intros m output_path t system H. unfold run_risk_agent. run_steps.
    rewrite written_app, written_console by reflexivity. rewrite H.
    cbn [py_get]. run_cases.
    all: rewrite <- ?app_assoc; cbn [fst]; rewrite effects_app;
      cbn [effects filter console negb app]; eexists; reflexivity.
  - intros m requirements H. unfold get_or. rewrite H. reflexivity.
Qed.

(** C10, as the code has it: the sequence the Review stage replaces is
    U+00E2 U+0080 U+0094 (the bytes of the em dash read as Latin-1).  What
    the stage validates and saves is the generated text with every
    occurrence of that sequence replaced by the em dash, then trimmed: the
    stage ends as the validator does on that text and writes that text (and
    nothing else) when the validator accepts it; the generated text is cut
    at the occurrences of the sequence into pieces that hold none, the text
    is these pieces joined by em dashes and trimmed, and it holds no
    occurrence of the sequence. *)
Theorem review_text_is_repaired
    (intake_output risk_output : value) (folder_name output_path : pystr)
    (t : list event) (system : pystr) (reply : option pystr) :
  written (Path rt (lit "prompts/review_prompt.md")) t
    (files w (Path rt (lit "prompts/review_prompt.md"))) = Some system ->
  gateway w (gateway_calls t) system
    (review_user_message rt w intake_output risk_output folder_name) = inr reply ->
  let output := strip (replace mojibake_dash em_dash (reply_text reply)) in
  snd (run_review_agent rt w intake_output risk_output folder_name output_path t)
  = validate_review output /\
  effects (fst (run_review_agent rt w intake_output risk_output folder_name output_path t))
  = effects t ++
    GatewayCall system (review_user_message rt w intake_output risk_output folder_name) ::
    match validate_review output with
    | Ret _ => [WriteFile output_path output]
    | _ => []
    end /\
  str_contains mojibake_dash output = false /\
  exists segments : list pystr,
    Forall no_mojibake segments /\
    reply_text reply = join mojibake_dash segments /\
    output = strip (join em_dash segments).
Proof.
  intros Hsys Hgw output. subst output.
  change (strip (replace mojibake_dash em_dash (reply_text reply)))
    with (review_output (reply_text reply)).
  split; [|split; [|split]].
  3: apply review_output_clean.
  3:{ destruct (replace_by_segments (reply_text reply)) as [segments [F [J R]]].
      exists segments. split; [exact F|]. split; [exact J|].
      unfold review_output. now rewrite R. }
  all: unfold run_review_agent; run_steps;
    rewrite written_app, written_console by reflexivity; rewrite Hsys;
    run_steps; unfold call_model; rewrite gateway_calls_app;
    match goal with
    | |- context [gateway_calls (?a :: ?l)] =>
        rewrite (gateway_calls_console (a :: l)) by reflexivity
    end;
    rewrite Nat.add_0_r, Hgw.
  all: destruct reply as [content|]; cbn [reply_text];
    cbv beta iota zeta delta [rbind _step print emit lift ret _fail save_text];
    match goal with
    | |- context [validate_review ?o] => destruct (validate_review o) as [[]| |]
    end;
    rewrite <- ?app_assoc; cbn [fst snd]; rewrite ?effects_app;
    cbn [effects filter console negb app]; reflexivity.
Qed.

End Claims.

(** ** Concrete runs *)

Example complete_run :
  snd (pipeline Reference.rt Demo.complete) = Ret tt /\
  exists s1 u1 c1 s2 u2 c2 s3 u3,
    effects (fst (pipeline Reference.rt Demo.complete))
    = full_order Reference.rt Demo.prd_path s1 u1 c1 s2 u2 c2 s3 u3
        (lit "## Purpose " ++ em_dash ++ lit " plan" ++ nl ++
         lit "## In Scope" ++ nl ++ lit "## Out of Scope" ++ nl ++
         lit "## Review Decision").
Proof.
  split; [vm_compute; reflexivity|].
  do 8 eexists. vm_compute. reflexivity.
Qed.

(** C1 as stated fails: with the Risk template missing (and the Intake one
    in place) the run fails for the missing prompt only after the Intake
    stage has called the Gateway and written its artifact. *)
Lemma risk_template_missing_after_intake :
  files Demo.without_risk_prompt (Path Reference.rt (lit "prompts/risk_prompt.md")) = None /\
  snd (pipeline Reference.rt Demo.without_risk_prompt)
  = Fail (lit "Prompt file not found: prompts/risk_prompt.md") /\
  exists content,
    effects (fst (pipeline Reference.rt Demo.without_risk_prompt))
    = [GatewayCall (lit "Parse the PRD.")
         (lit "Here is the PRD to parse:" ++ nl ++ nl ++ lit "# PRD");
       WriteFile (lit "output/prd_clean_agile/intake_output.json") content].
Proof.
  split; [reflexivity|]. split; [vm_compute; reflexivity|].
  eexists. vm_compute. reflexivity.
Qed.

(** With the Review template missing, the run fails for the missing prompt
    after the Intake and Risk stages have called the Gateway and written
    their artifacts. *)
Example review_template_missing_after_risk :
  snd (pipeline Reference.rt Cases.without_review_prompt)
  = Fail (lit "Prompt file not found: prompts/review_prompt.md") /\
  exists s1 u1 c1 s2 u2 c2,
    effects (fst (pipeline Reference.rt Cases.without_review_prompt))
    = [GatewayCall s1 u1;
       WriteFile (lit "output/prd_clean_agile/intake_output.json") c1;
       GatewayCall s2 u2;
       WriteFile (lit "output/prd_clean_agile/risk_output.json") c2].
Proof.
  split; [vm_compute; reflexivity|].
  do 6 eexists. vm_compute. reflexivity.
Qed.

Lemma missing_template_stops_its_stage_witness :
  exists v : value,
    snd (pipeline Reference.rt Demo.without_risk_prompt)
    = Fail (prompt_not_found Reference.rt (lit "prompts/risk_prompt.md")) /\
    exists system user,
      effects (fst (pipeline Reference.rt Demo.without_risk_prompt))
      = [GatewayCall system user;
         WriteFile (intake_output_path Reference.rt Demo.prd_path)
           (json_dumps Reference.rt true v)].
Proof.
  eexists.
  eapply (proj1 (proj2 (proj1 (proj2 (missing_template_stops_its_stage Reference.rt
                                        Demo.without_risk_prompt))
                          (lit "run_pipeline.py") Demo.prd_path (lit "sk-test")
                          eq_refl eq_refl _ eq_refl eq_refl))).
  vm_compute. reflexivity.
  Unshelve. discriminate.
Defined.


Lemma risk_input_ignores_plan_context_witness :
  run_risk_agent Reference.rt Demo.complete
    (PyDict [(lit "plan_context", Demo.plan_context_value); (lit "requirements", PyList [])])
    (lit "risk_output.json") []
  = run_risk_agent Reference.rt Demo.complete
      (PyDict [(lit "requirements", PyList []); (lit "plan_context", PyInt 7)])
      (lit "risk_output.json") [].
Proof.
  apply (proj1 (risk_input_ignores_plan_context Reference.rt Demo.complete));
    reflexivity.
Defined.

Lemma review_text_is_repaired_witness :
  let t := [GatewayCall [] []; GatewayCall [] []] in
  let output := strip (replace mojibake_dash em_dash Demo.review_text) in
  snd (run_review_agent Reference.rt Demo.complete (PyDict []) (PyList []) (lit "prd")
         (lit "test_plan.md") t)
  = validate_review output /\
  effects (fst (run_review_agent Reference.rt Demo.complete (PyDict []) (PyList [])
                  (lit "prd") (lit "test_plan.md") t))
  = effects t ++
    GatewayCall (lit "Render the plan.")
      (review_user_message Reference.rt Demo.complete (PyDict []) (PyList []) (lit "prd")) ::
    match validate_review output with
    | Ret _ => [WriteFile (lit "test_plan.md") output]
    | _ => []
    end /\
  str_contains mojibake_dash output = false /\
  exists segments : list pystr,
    Forall no_mojibake segments /\
    Demo.review_text = join mojibake_dash segments /\
    output = strip (join em_dash segments).
Proof.
  intros t.
  apply (review_text_is_repaired Reference.rt Demo.complete (PyDict []) (PyList [])
           (lit "prd") (lit "test_plan.md") t (system := lit "Render the plan.")
           (reply := Some Demo.review_text)).
  - reflexivity.
  - reflexivity.
Defined.

Lemma intake_missing_fields_reported_witness :
  let members :=
    [(lit "plan_context", PyDict [(lit "purpose", PyStr (lit "p"))]);
     (lit "requirements",
      PyList [PyDict [(lit "req_id", PyStr (lit "R1")); (lit "prd_ref", PyStr (lit "1"))];
              PyDict [(lit "ambiguity_flags", PyList [])]])] in
  count_missing members = 5 /\
  validate_intake Reference.rt (PyDict members)
  = Fail (lit "Intake Agent output failed validation." ++ nl ++ nl ++
          lit "Missing fields: " ++
          lit "plan_context.in_scope, plan_context.out_of_scope, R1.ambiguity_flags, unknown.req_id, unknown.prd_ref").
Proof.
  intros members. split; [reflexivity|].
  destruct (intake_missing_fields_reported Reference.rt members eq_refl) as [_ [_ [_ H]]].
  rewrite H; [reflexivity | discriminate].
Defined.

Lemma risk_top_level_shape_witness :
  validate_risk Reference.rt (PyDict [(lit "req_id", PyStr (lit "R1"))])
  = Fail risk_not_array.
Proof.
  apply (proj1 (risk_top_level_shape Reference.rt)). discriminate.
Defined.

Lemma test_case_enumerations_witness :
  let tc := [(lit "tc_id", PyStr (lit "TC1")); (lit "type", PyStr (lit "bogus"));
             (lit "surface", PyStr (lit "api"))] in
  validate_risk Reference.rt
    (PyList [PyDict [(lit "req_id", PyStr (lit "R1")); (lit "risk", PyStr (lit "r"));
                     (lit "severity", PyStr (lit "high"));
                     (lit "severity_locked", PyBool false);
                     (lit "test_cases", PyList [PyDict tc])]])
  = Fail (lit "Risk Agent output failed validation." ++ nl ++ nl ++
          lit "TC1: invalid type 'bogus'") /\
  check_enum Reference.rt (PyDict tc) (PyStr (lit "TC1")) (lit "type") valid_types []
  = Ret [lit "TC1: invalid type 'bogus'"].
Proof.
  intros tc.
  destruct (test_case_enumerations Reference.rt) as [H1 [H2 _]].
  split.
  - rewrite H1; reflexivity.
  - apply (proj1 (H2 tc (PyStr (lit "bogus")) [] eq_refl eq_refl eq_refl)).
Defined.

(** ** More of the sanitizer and of the validators *)

(** A payload in a plain fence (no language tag) between spaces is
    unwrapped like one in a json fence. *)
Lemma sanitize_plain_fence (P ws1 ws2 : pystr) :
  forallb isspace ws1 = true -> forallb isspace ws2 = true ->
  sanitize (ws1 ++ fence ++ nl ++ P ++ nl ++ fence ++ ws2) = strip P.
Proof.
  intros H1 H2. unfold sanitize.
  replace (ws1 ++ fence ++ nl ++ P ++ nl ++ fence ++ ws2)
    with (ws1 ++ (fence ++ nl ++ P ++ nl ++ fence) ++ ws2)
    by (now rewrite <- !app_assoc).
  rewrite strip_spaces by assumption.
  assert (strip (fence ++ nl ++ P ++ nl ++ fence) = fence ++ nl ++ P ++ nl ++ fence) as ->.
  { unfold strip.
    assert (forall r, lstrip (fence ++ r) = fence ++ r) as -> by reflexivity.
    replace (fence ++ nl ++ P ++ nl ++ fence)
      with ((fence ++ nl ++ P ++ nl ++ lit "``") ++ [96%N])
      by (now rewrite <- !app_assoc).
    apply rstrip_last; reflexivity. }
  rewrite (removeprefix_none fence_json) by reflexivity.
  rewrite removeprefix_app.
  replace (nl ++ P ++ nl ++ fence) with ((nl ++ P ++ nl) ++ fence)
    by (now rewrite <- !app_assoc).
  rewrite removesuffix_app by discriminate.
  apply strip_spaces; reflexivity.
Qed.

(** X1: a plain fence is removed like the json fence: the wrapped text is
    sanitized to the trimmed payload, and decodes like the bare payload when
    the trimmed payload has no fence at either end. *)
Theorem plain_fence_is_transparent (rt : runtime) (agent_name P ws1 ws2 : pystr) :
  forallb isspace ws1 = true -> forallb isspace ws2 = true ->
  sanitize (ws1 ++ fence ++ nl ++ P ++ nl ++ fence ++ ws2) = strip P /\
  (startswith fence (strip P) = false -> endswith fence (strip P) = false ->
   parse_json_output rt (ws1 ++ fence ++ nl ++ P ++ nl ++ fence ++ ws2) agent_name
   = parse_json_output rt P agent_name).
Proof.
  intros H1 H2. split; [now apply sanitize_plain_fence|].
  intros H3 H4. unfold parse_json_output.
  rewrite sanitize_plain_fence by assumption.
  rewrite (sanitize_unfenced _ H3 H4). reflexivity.
Qed.

Lemma plain_fence_is_transparent_witness :
  sanitize (nl ++ fence ++ nl ++ lit "[1, 2]" ++ nl ++ fence ++ lit "  ") = lit "[1, 2]" /\
  parse_json_output Reference.rt (nl ++ fence ++ nl ++ lit "[1, 2]" ++ nl ++ fence ++ lit "  ")
    (lit "Risk Agent")
  = parse_json_output Reference.rt (lit "[1, 2]") (lit "Risk Agent").
Proof.
  destruct (plain_fence_is_transparent Reference.rt (lit "Risk Agent") (lit "[1, 2]")
              nl (lit "  ") eq_refl eq_refl) as [H1 H2].
  split; [exact H1 | apply H2; reflexivity].
Defined.

(** X2: the Intake validator reads its payload through the two keys
    [plan_context] and [requirements] only: two mappings with the same
    values under them get the same verdict, so other keys, and the order of
    the keys, do not matter. *)
Theorem validate_intake_reads_two_keys (rt : runtime) (m1 m2 : list (pystr * value)) :
  dict_lookup (lit "plan_context") m1 = dict_lookup (lit "plan_context") m2 ->
  dict_lookup (lit "requirements") m1 = dict_lookup (lit "requirements") m2 ->
  validate_intake rt (PyDict m1) = validate_intake rt (PyDict m2).
Proof.
  intros H1 H2. unfold validate_intake, py_not_in.
  cbn [py_in py_getitem bind]. unfold dict_has. rewrite H1, H2. reflexivity.
Qed.

Lemma validate_intake_reads_two_keys_witness :
  validate_intake Reference.rt
    (PyDict [(lit "generated_by", PyStr (lit "model"));
             (lit "requirements", PyList []);
             (lit "plan_context", Demo.plan_context_value)])
  = validate_intake Reference.rt
      (PyDict [(lit "plan_context", Demo.plan_context_value);
               (lit "requirements", PyList [])]).
Proof.
  apply validate_intake_reads_two_keys; reflexivity.
Defined.

(** *** The Review text *)

Lemma replace_without_mojibake (s : pystr) :
  str_contains mojibake_dash s = false -> replace mojibake_dash em_dash s = s.
Proof.
  change (replace mojibake_dash em_dash s) with (replace_from mojibake_dash em_dash 0 s).
  induction s as [|c s IH]; [reflexivity|].
  cbn [str_contains replace_from]. intros H.
  apply orb_false_iff in H. destruct H as [H1 H2].
  rewrite H1, (IH H2). reflexivity.
Qed.

(** X4: a generated text without the mis-decoded dash is only trimmed;
    and repairing a text that has been repaired changes nothing. *)
Theorem review_output_idempotent (raw : pystr) :
  (str_contains mojibake_dash raw = false -> review_output raw = strip raw) /\
  review_output (review_output raw) = review_output raw.
Proof.
  split.
  - intros H. unfold review_output. now rewrite replace_without_mojibake.
  - pose proof (review_output_clean raw) as C.
    unfold review_output at 1. rewrite (replace_without_mojibake _ C).
    unfold review_output. apply strip_idem.
Qed.

Lemma review_output_idempotent_witness :
  review_output (lit "  ## Purpose ") = strip (lit "  ## Purpose ").
Proof.
  apply (proj1 (review_output_idempotent (lit "  ## Purpose "))). reflexivity.
Defined.

Lemma spaces_hold_no_mojibake (s : pystr) :
  forallb isspace s = true -> str_contains mojibake_dash s = false.
Proof.
  induction s as [|c s IH]; [reflexivity|].
  cbn [forallb str_contains]. rewrite andb_true_iff. intros [C H].
  rewrite (IH H), orb_false_r.
  destruct (startswith mojibake_dash (c :: s)) eqn:E; [|reflexivity].
  apply startswith_iff in E. destruct E as [r E]. cbn in E. injection E as -> _.
  discriminate C.
Qed.

Lemma blank_review_output (raw : pystr) :
  forallb isspace raw = true -> review_output raw = [].
Proof.
  intros H. unfold review_output.
  rewrite (replace_without_mojibake _ (spaces_hold_no_mojibake _ H)).
  unfold strip. now rewrite lstrip_all_spaces.
Qed.

(** ** More of the runs *)

(** Reads the Gateway call counter through the console output. *)
Ltac settle_calls :=
  rewrite ?gateway_calls_app;
  repeat match goal with
    | |- context [gateway_calls (?a :: ?l)] =>
        rewrite (gateway_calls_console (a :: l)) by reflexivity
    end;
  rewrite ?Nat.add_0_r.

(** Closes a goal about the result and the effects of a run that has been
    computed. *)
Ltac settle_run :=
  cbv beta iota zeta delta [rbind _step print emit lift ret _fail save_json save_text];
  rewrite <- ?app_assoc; cbn [fst snd app];
  rewrite ?effects_app; cbn [effects filter console negb app].

Section MoreRuns.

Variable rt : runtime.
Variable w : world.

(** X5: without a credential ([OPENAI_API_KEY] unset or empty) the run
    fails with the message about the key before any stage: nothing is done
    outside the console. *)
Theorem missing_credential_stops_the_run (prog arg : pystr) :
  argv w = [prog; arg] ->
  api_key w = None \/ api_key w = Some [] ->
  snd (pipeline rt w)
  = Fail (lit "OPENAI_API_KEY is not set. Add it to your .env file.") /\
  effects (fst (pipeline rt w)) = [] /\
  filter is_stderr (fst (pipeline rt w))
  = [Stderr (fail_banner (lit "OPENAI_API_KEY is not set. Add it to your .env file."))].
Proof.
  intros Hargv Hkey. unfold pipeline, main. rewrite Hargv.
  cbv beta iota zeta delta [rbind print emit get_openai_client ret _fail].
  destruct Hkey as [-> | ->]; repeat split; reflexivity.
Qed.

(** X6: called with another number of arguments than one, the program
    prints its two usage lines on the error channel and exits with status 1;
    it prints nothing else and does nothing else. *)
Theorem wrong_command_line_prints_usage :
  length (argv w) <> 2 ->
  pipeline rt w = (usage_lines, Raise (SystemExit 1)).
Proof.
  intros H. unfold pipeline, main.
  destruct (argv w) as [|a [|b [|c l]]]; try reflexivity.
  exfalso. apply H. reflexivity.
Qed.

(** X7: when the PRD file does not exist, the run fails with the message
    that names it, before the Intake call: nothing is done outside the
    console. *)
Theorem missing_prd_stops_the_run (prog arg key system : pystr) :
  argv w = [prog; arg] -> api_key w = Some key -> key <> [] ->
  files w (Path rt (lit "prompts/intake_prompt.md")) = Some system ->
  files w (Path rt arg) = None ->
  snd (pipeline rt w) = Fail (lit "PRD file not found: " ++ Path rt arg) /\
  effects (fst (pipeline rt w)) = [].
Proof.
  intros Hargv Hkey Hne Hsys Hprd.
  unfold pipeline, main. rewrite Hargv.
  cbv beta iota zeta delta [rbind print emit get_openai_client ret].
  rewrite Hkey. destruct key as [|c k]; [congruence|].
  unfold run_intake_agent.
  cbv beta iota zeta delta [rbind _header _step print emit load_prompt read_file ret].
  settle_trace. cbn [written]. rewrite Hsys.
  settle_trace. cbn [written]. rewrite Hprd.
  unfold _fail. cbn [fst snd]. split; reflexivity.
Qed.

(** *** A Gateway call that fails *)

Lemma intake_call_fails (prd_path output_path : pystr) (t : list event)
    (system prd e : pystr) :
  written (Path rt (lit "prompts/intake_prompt.md")) t
    (files w (Path rt (lit "prompts/intake_prompt.md"))) = Some system ->
  written prd_path t (files w prd_path) = Some prd ->
  gateway w (gateway_calls t) system (intake_user_message prd) = inl e ->
  snd (run_intake_agent rt w prd_path output_path t)
  = Fail (api_call_failed (lit "Intake Agent") e) /\
  effects (fst (run_intake_agent rt w prd_path output_path t))
  = effects t ++ [GatewayCall system (intake_user_message prd)].
Proof.
  intros Hsys Hprd Hgw. unfold run_intake_agent. run_steps.
  rewrite written_app, written_console by reflexivity. rewrite Hsys. run_steps.
  rewrite written_app, written_console by reflexivity. rewrite Hprd. run_steps.
  unfold call_model. settle_calls. fold (intake_user_message prd). rewrite Hgw.
  settle_run. split; reflexivity.
Qed.

Lemma risk_call_fails (m : list (pystr * value)) (output_path : pystr) (t : list event)
    (system e : pystr) :
  written (Path rt (lit "prompts/risk_prompt.md")) t
    (files w (Path rt (lit "prompts/risk_prompt.md"))) = Some system ->
  gateway w (gateway_calls t) system
    (risk_user_message rt (get_or (lit "project_context") m PyNone)
       (get_or (lit "requirements") m (PyList []))) = inl e ->
  snd (run_risk_agent rt w (PyDict m) output_path t)
  = Fail (api_call_failed (lit "Risk Agent") e) /\
  effects (fst (run_risk_agent rt w (PyDict m) output_path t))
  = effects t ++
    [GatewayCall system
       (risk_user_message rt (get_or (lit "project_context") m PyNone)
          (get_or (lit "requirements") m (PyList [])))].
Proof.
  intros Hsys Hgw. unfold run_risk_agent. run_steps.
  rewrite written_app, written_console by reflexivity. rewrite Hsys.
  cbn [py_get]. run_steps. cbv beta iota zeta delta [lift ret rbind]. run_steps.
  unfold call_model. settle_calls. rewrite Hgw.
  settle_run. split; reflexivity.
Qed.

Lemma review_call_fails (intake_output risk_output : value)
    (folder_name output_path : pystr) (t : list event) (system e : pystr) :
  written (Path rt (lit "prompts/review_prompt.md")) t
    (files w (Path rt (lit "prompts/review_prompt.md"))) = Some system ->
  gateway w (gateway_calls t) system
    (review_user_message rt w intake_output risk_output folder_name) = inl e ->
  snd (run_review_agent rt w intake_output risk_output folder_name output_path t)
  = Fail (api_call_failed (lit "Review Agent") e) /\
  effects (fst (run_review_agent rt w intake_output risk_output folder_name output_path t))
  = effects t ++
    [GatewayCall system (review_user_message rt w intake_output risk_output folder_name)].
Proof.
  intros Hsys Hgw. unfold run_review_agent. run_steps.
  rewrite written_app, written_console by reflexivity. rewrite Hsys. run_steps.
  unfold call_model. settle_calls. rewrite Hgw.
  settle_run. split; reflexivity.
Qed.

(** X8: when the backend raises on the call of a stage, the stage fails with
    the message that carries the text of the exception, after that one
    call: it does not call again and writes no artifact. *)
Theorem failed_call_is_not_retried :
  (forall (prd_path output_path : pystr) (t : list event) (system prd e : pystr),
      written (Path rt (lit "prompts/intake_prompt.md")) t
        (files w (Path rt (lit "prompts/intake_prompt.md"))) = Some system ->
      written prd_path t (files w prd_path) = Some prd ->
      gateway w (gateway_calls t) system (intake_user_message prd) = inl e ->
      snd (run_intake_agent rt w prd_path output_path t)
      = Fail (api_call_failed (lit "Intake Agent") e) /\
      effects (fst (run_intake_agent rt w prd_path output_path t))
      = effects t ++ [GatewayCall system (intake_user_message prd)]) /\
  (forall (m : list (pystr * value)) (output_path : pystr) (t : list event)
          (system e : pystr),
      written (Path rt (lit "prompts/risk_prompt.md")) t
        (files w (Path rt (lit "prompts/risk_prompt.md"))) = Some system ->
      gateway w (gateway_calls t) system
        (risk_user_message rt (get_or (lit "project_context") m PyNone)
           (get_or (lit "requirements") m (PyList []))) = inl e ->
      snd (run_risk_agent rt w (PyDict m) output_path t)
      = Fail (api_call_failed (lit "Risk Agent") e) /\
      effects (fst (run_risk_agent rt w (PyDict m) output_path t))
      = effects t ++
        [GatewayCall system
           (risk_user_message rt (get_or (lit "project_context") m PyNone)
              (get_or (lit "requirements") m (PyList [])))]) /\
  (forall (intake_output risk_output : value) (folder_name output_path : pystr)
          (t : list event) (system e : pystr),
      written (Path rt (lit "prompts/review_prompt.md")) t
        (files w (Path rt (lit "prompts/review_prompt.md"))) = Some system ->
      gateway w (gateway_calls t) system
        (review_user_message rt w intake_output risk_output folder_name) = inl e ->
      snd (run_review_agent rt w intake_output risk_output folder_name output_path t)
      = Fail (api_call_failed (lit "Review Agent") e) /\
      effects (fst (run_review_agent rt w intake_output risk_output folder_name
                      output_path t))
      = effects t ++
        [GatewayCall system
           (review_user_message rt w intake_output risk_output folder_name)]).
Proof.
  split; [|split].
  - intros. now apply intake_call_fails.
  - intros. now apply risk_call_fails.
  - intros. now apply review_call_fails.
Qed.

(** *** A reply that does not decode *)

Lemma parse_fails (agent e : pystr) (reply : option pystr) :
  json_loads rt (sanitize (reply_text reply)) = JSONDecodeError e ->
  parse_json_output rt (reply_text reply) agent
  = Fail (not_parsed agent e (sanitize (reply_text reply))).
Proof. intros H. unfold parse_json_output. rewrite H. reflexivity. Qed.

(** X9: when the reply of the Intake or Risk call does not decode, the
    stage fails with the message that carries the decoder's text and the
    whole sanitized reply; it has made its call and writes no artifact. *)
Theorem undecodable_reply_stops_the_stage :
  (forall (prd_path output_path : pystr) (t : list event) (system prd e : pystr)
          (reply : option pystr),
      written (Path rt (lit "prompts/intake_prompt.md")) t
        (files w (Path rt (lit "prompts/intake_prompt.md"))) = Some system ->
      written prd_path t (files w prd_path) = Some prd ->
      gateway w (gateway_calls t) system (intake_user_message prd) = inr reply ->
      json_loads rt (sanitize (reply_text reply)) = JSONDecodeError e ->
      snd (run_intake_agent rt w prd_path output_path t)
      = Fail (not_parsed (lit "Intake Agent") e (sanitize (reply_text reply))) /\
      effects (fst (run_intake_agent rt w prd_path output_path t))
      = effects t ++ [GatewayCall system (intake_user_message prd)]) /\
  (forall (m : list (pystr * value)) (output_path : pystr) (t : list event)
          (system e : pystr) (reply : option pystr),
      written (Path rt (lit "prompts/risk_prompt.md")) t
        (files w (Path rt (lit "prompts/risk_prompt.md"))) = Some system ->
      gateway w (gateway_calls t) system
        (risk_user_message rt (get_or (lit "project_context") m PyNone)
           (get_or (lit "requirements") m (PyList []))) = inr reply ->
      json_loads rt (sanitize (reply_text reply)) = JSONDecodeError e ->
      snd (run_risk_agent rt w (PyDict m) output_path t)
      = Fail (not_parsed (lit "Risk Agent") e (sanitize (reply_text reply))) /\
      effects (fst (run_risk_agent rt w (PyDict m) output_path t))
      = effects t ++
        [GatewayCall system
           (risk_user_message rt (get_or (lit "project_context") m PyNone)
              (get_or (lit "requirements") m (PyList [])))]).
Proof.
  split.
  - intros prd_path output_path t system prd e reply Hsys Hprd Hgw Hloads.
    pose proof (parse_fails (lit "Intake Agent") reply Hloads) as P.
    unfold run_intake_agent. run_steps.
    rewrite written_app, written_console by reflexivity. rewrite Hsys. run_steps.
    rewrite written_app, written_console by reflexivity. rewrite Hprd. run_steps.
    unfold call_model. settle_calls. fold (intake_user_message prd). rewrite Hgw.
    destruct reply as [content|]; cbn [reply_text] in *; rewrite P;
      settle_run; split; reflexivity.
  - intros m output_path t system e reply Hsys Hgw Hloads.
    pose proof (parse_fails (lit "Risk Agent") reply Hloads) as P.
    unfold run_risk_agent. run_steps.
    rewrite written_app, written_console by reflexivity. rewrite Hsys.
    cbn [py_get]. run_steps. cbv beta iota zeta delta [lift ret rbind]. run_steps.
    unfold call_model. settle_calls. rewrite Hgw.
    destruct reply as [content|]; cbn [reply_text] in *; rewrite P;
      settle_run; split; reflexivity.
Qed.

(** *** What reaches the disk *)

(** Closes a case of a stage: the files it wrote. *)
Ltac written_case :=
  rewrite <- ?app_assoc; cbn [app fst snd];
  eexists; split; [reflexivity|];
  let K := fresh "K" in
  intros ? ? K; cbn [In] in K;
  repeat (destruct K as [K|K]; try discriminate K);
  try contradiction;
  injection K as <- <-; (split; [reflexivity|]).

(** X10: a stage writes nothing but its artifact, at its output path, and
    only what its validator has accepted: the Intake and Risk stages the
    dump of a value their validator returned on, the Review stage a text its
    validator returned on. *)
Theorem only_validated_output_is_written :
  (forall (prd_path output_path : pystr) (t : list event),
      exists out,
        fst (run_intake_agent rt w prd_path output_path t) = t ++ out /\
        forall p c, In (WriteFile p c) out ->
                    p = output_path /\
                    exists v, c = json_dumps rt true v /\ validate_intake rt v = Ret tt) /\
  (forall (intake_output : value) (output_path : pystr) (t : list event),
      exists out,
        fst (run_risk_agent rt w intake_output output_path t) = t ++ out /\
        forall p c, In (WriteFile p c) out ->
                    p = output_path /\
                    exists v, c = json_dumps rt true v /\ validate_risk rt v = Ret tt) /\
  (forall (intake_output risk_output : value) (folder_name output_path : pystr)
          (t : list event),
      exists out,
        fst (run_review_agent rt w intake_output risk_output folder_name output_path t)
        = t ++ out /\
        forall p c, In (WriteFile p c) out ->
                    p = output_path /\ validate_review c = Ret tt).
Proof.
  split; [|split].
  - intros prd_path output_path t. unfold run_intake_agent. run_cases.
    all: written_case.
    all: eexists; split; [reflexivity|];
      match goal with
      | H : validate_intake _ _ = Ret ?u |- _ => destruct u; exact H
      end.
  - intros intake_output output_path t. unfold run_risk_agent. run_cases.
    all: written_case.
    all: eexists; split; [reflexivity|];
      match goal with
      | H : validate_risk _ _ = Ret ?u |- _ => destruct u; exact H
      end.
  - intros intake_output risk_output folder_name output_path t.
    unfold run_review_agent. run_cases.
    all: written_case.
    all: match goal with
      | H : validate_review _ = Ret ?u |- _ => destruct u; exact H
      end.
Qed.

(** *** A blank reply to the Review call *)

(** X11: when the reply of the Review call is missing or blank, the stage
    fails with the message that lists the four sections, after its call,
    and writes no document. *)
Theorem blank_review_reply_fails
    (intake_output risk_output : value) (folder_name output_path : pystr)
    (t : list event) (system : pystr) (reply : option pystr) :
  written (Path rt (lit "prompts/review_prompt.md")) t
    (files w (Path rt (lit "prompts/review_prompt.md"))) = Some system ->
  gateway w (gateway_calls t) system
    (review_user_message rt w intake_output risk_output folder_name) = inr reply ->
  forallb isspace (reply_text reply) = true ->
  snd (run_review_agent rt w intake_output risk_output folder_name output_path t)
  = Fail all_sections_missing /\
  effects (fst (run_review_agent rt w intake_output risk_output folder_name output_path t))
  = effects t ++
    [GatewayCall system (review_user_message rt w intake_output risk_output folder_name)].
Proof.
  intros Hsys Hgw Hblank. pose proof (blank_review_output _ Hblank) as B.
  unfold run_review_agent. run_steps.
  rewrite written_app, written_console by reflexivity. rewrite Hsys. run_steps.
  unfold call_model. settle_calls. rewrite Hgw.
  destruct reply as [content|]; cbn [reply_text] in B;
    cbv beta iota zeta delta [rbind _step print emit ret]; rewrite B;
    change (validate_review []) with (@Fail unit all_sections_missing);
    settle_run; split; reflexivity.
Qed.

(** *** Completion *)

Lemma review_stage_completes (intake_output risk_output : value)
    (folder_name output_path : pystr) (t : list event) :
  exists out system user,
    fst (run_review_agent rt w intake_output risk_output folder_name output_path t)
    = t ++ out /\
    ((snd (run_review_agent rt w intake_output risk_output folder_name output_path t)
      = Ret tt /\
      exists content,
        effects out = [GatewayCall system user; WriteFile output_path content]) \/
     (snd (run_review_agent rt w intake_output risk_output folder_name output_path t)
      <> Ret tt /\
      (effects out = [] \/ effects out = [GatewayCall system user]))).
Proof.
  unfold run_review_agent. run_cases.
  all: rewrite <- ?app_assoc; cbn [app fst snd].
  all: do 3 eexists; split; [reflexivity|]; cbn [effects filter console negb].
  all: first [ left; split; [reflexivity | eexists; reflexivity]
             | right; split; [discriminate|];
               first [ left; reflexivity | right; reflexivity ] ].
  Unshelve. all: exact [].
Qed.

Ltac count_case :=
  rewrite <- ?app_assoc; cbn [fst snd];
  rewrite ?effects_app;
  repeat match goal with
    | H : effects _ = _ |- _ => rewrite H; clear H
    end;
  cbn [effects filter console negb app length];
  (split; intros K; first [discriminate K | reflexivity]).

(** X12: no partial run counts as a success: a run completes exactly when
    it has done, outside the console, all six things (the three calls and
    the three artifacts). *)
Theorem run_completes_iff_all_is_done :
  snd (pipeline rt w) = Ret tt <-> length (effects (fst (pipeline rt w))) = 6.
Proof.
  unfold pipeline, main.
  destruct (argv w) as [|prog [|arg [|x l]]];
    try (cbv beta iota zeta delta [rbind print_err print emit]; count_case).
  cbv beta iota zeta delta [rbind print emit get_openai_client _fail ret].
  destruct (api_key w) as [[|c k]|]; try count_case.
  cbn [app].
  match goal with
  | |- context [run_intake_agent rt w ?p ?o ?t0] =>
      destruct (intake_stage rt w p o t0) as (out1 & s1 & u1 & F1 & R1 & C1);
      destruct (run_intake_agent rt w p o t0) as [t1 [v1| |]]
  end; cbn [fst snd] in *; subst t1;
    try (destruct C1 as [C1|[C1|[c1 C1]]]; count_case).
  specialize (R1 v1 eq_refl). clear C1.
  match goal with
  | |- context [run_risk_agent rt w ?i ?o ?t0] =>
      destruct (risk_stage rt w i o t0) as (out2 & s2 & u2 & F2 & R2 & C2);
      destruct (run_risk_agent rt w i o t0) as [t2 [v2| |]]
  end; cbn [fst snd] in *; subst t2;
    try (destruct C2 as [C2|[C2|[c2 C2]]]; count_case).
  specialize (R2 v2 eq_refl). clear C2.
  match goal with
  | |- context [run_review_agent rt w ?i ?r ?f ?o ?t0] =>
      destruct (review_stage_completes i r f o t0)
        as (out3 & s3 & u3 & F3 & [[R3 [c3 E3]] | [R3 [E3 | E3]]]);
      destruct (run_review_agent rt w i r f o t0) as [t3 [[]| |]]
  end; cbn [fst snd] in *; subst t3;
    try discriminate R3; try (exfalso; apply R3; reflexivity);
    clear R3; cbv beta iota zeta delta [print emit]; count_case.
Qed.

(** *** One diagnostic, last *)

(** Closes a case of a stage: what it wrote on the error channel. *)
Ltac diagnostic_case :=
  rewrite <- ?(@app_assoc event); cbn [app fst snd];
  eexists; split; [reflexivity|];
  split;
  [ reflexivity
  | let K := fresh "K" in
    intros ? K; first
      [ discriminate K
      | injection K as <-;
        match goal with
        | |- exists pre, ?l = pre ++ [_] => exists (removelast l); reflexivity
        end ] ].

Lemma intake_diagnostic (prd_path output_path : pystr) (t : list event) :
  exists out,
    fst (run_intake_agent rt w prd_path output_path t) = t ++ out /\
    filter is_stderr out = diagnostic (snd (run_intake_agent rt w prd_path output_path t)) /\
    forall m, snd (run_intake_agent rt w prd_path output_path t) = Fail m ->
              exists pre, out = pre ++ [Stderr (fail_banner m)].
Proof. unfold run_intake_agent. run_cases. all: diagnostic_case. Qed.

Lemma risk_diagnostic (intake_output : value) (output_path : pystr) (t : list event) :
  exists out,
    fst (run_risk_agent rt w intake_output output_path t) = t ++ out /\
    filter is_stderr out
    = diagnostic (snd (run_risk_agent rt w intake_output output_path t)) /\
    forall m, snd (run_risk_agent rt w intake_output output_path t) = Fail m ->
              exists pre, out = pre ++ [Stderr (fail_banner m)].
Proof. unfold run_risk_agent. run_cases. all: diagnostic_case. Qed.

Lemma review_diagnostic (intake_output risk_output : value)
    (folder_name output_path : pystr) (t : list event) :
  exists out,
    fst (run_review_agent rt w intake_output risk_output folder_name output_path t)
    = t ++ out /\
    filter is_stderr out
    = diagnostic (snd (run_review_agent rt w intake_output risk_output folder_name
                         output_path t)) /\
    forall m, snd (run_review_agent rt w intake_output risk_output folder_name
                     output_path t) = Fail m ->
              exists pre, out = pre ++ [Stderr (fail_banner m)].
Proof. unfold run_review_agent. run_cases. all: diagnostic_case. Qed.

Lemma last_after_cons (e x : event) (l : list event) :
  (exists pre, l = pre ++ [x]) -> exists pre, e :: l = pre ++ [x].
Proof. intros [pre ->]. exists (e :: pre). reflexivity. Qed.

Lemma last_after_app (x : event) (h l : list event) :
  (exists pre, l = pre ++ [x]) -> exists pre, h ++ l = pre ++ [x].
Proof. intros [pre ->]. exists (h ++ pre). apply app_assoc. Qed.

Ltac last_event :=
  first [ eexists; reflexivity
        | apply last_after_cons; last_event
        | apply last_after_app; last_event ].

Ltac diagnostic_run :=
  rewrite <- ?(@app_assoc event); cbn [fst snd];
  rewrite ?filter_app;
  repeat match goal with
    | H : filter is_stderr _ = _ |- _ => rewrite H; clear H
    end;
  cbn [filter is_stderr app diagnostic];
  (split; [reflexivity|]);
  let K := fresh "K" in
  intros ? K; try discriminate K.

(** The [Stderr] events of a run started with one argument. *)
Lemma stderr_of_run (prog arg : pystr) :
  argv w = [prog; arg] ->
  filter is_stderr (fst (pipeline rt w)) = diagnostic (snd (pipeline rt w)) /\
  forall m, snd (pipeline rt w) = Fail m ->
            exists pre, fst (pipeline rt w) = pre ++ [Stderr (fail_banner m)].
Proof.
  intros Hargv. unfold pipeline, main. rewrite Hargv.
  cbv beta iota zeta delta [rbind print emit get_openai_client _fail ret].
  destruct (api_key w) as [[|c k]|];
    try (cbn [app fst snd filter is_stderr diagnostic]; split; [reflexivity|];
         intros m K; injection K as <-;
         match goal with
         | |- exists pre, ?l = pre ++ [_] => exists (removelast l); reflexivity
         end).
  cbn [app].
  match goal with
  | |- context [run_intake_agent rt w ?p ?o ?t0] =>
      destruct (intake_diagnostic p o t0) as (out1 & F1 & D1 & L1);
      destruct (run_intake_agent rt w p o t0) as [t1 [v1| |]]
  end; cbn [fst snd] in *; subst t1.
  2:{ diagnostic_run. injection K as <-. destruct (L1 _ eq_refl) as [pre ->].
      last_event. }
  2:{ diagnostic_run. }
  clear L1.
  match goal with
  | |- context [run_risk_agent rt w ?i ?o ?t0] =>
      destruct (risk_diagnostic i o t0) as (out2 & F2 & D2 & L2);
      destruct (run_risk_agent rt w i o t0) as [t2 [v2| |]]
  end; cbn [fst snd] in *; subst t2.
  2:{ diagnostic_run. injection K as <-. destruct (L2 _ eq_refl) as [pre ->].
      last_event. }
  2:{ diagnostic_run. }
  clear L2.
  match goal with
  | |- context [run_review_agent rt w ?i ?r ?f ?o ?t0] =>
      destruct (review_diagnostic i r f o t0) as (out3 & F3 & D3 & L3);
      destruct (run_review_agent rt w i r f o t0) as [t3 [[]| |]]
  end; cbn [fst snd] in *; subst t3.
  2:{ diagnostic_run. injection K as <-. destruct (L3 _ eq_refl) as [pre ->].
      last_event. }
  2:{ diagnostic_run. }
  cbv beta iota zeta delta [print emit]. diagnostic_run.
Qed.

(** X13: a run started with one argument that completes has written
    nothing on the error channel; a run that ends by [_fail] has written
    there the banner with the message, once and nothing else, as the last
    thing it does.  (A run that an exception leaves is not covered: its
    traceback is the interpreter's.) *)
Theorem one_diagnostic_and_it_is_last (prog arg : pystr) :
  argv w = [prog; arg] ->
  (forall u, snd (pipeline rt w) = Ret u ->
             filter is_stderr (fst (pipeline rt w)) = []) /\
  (forall m, snd (pipeline rt w) = Fail m ->
             filter is_stderr (fst (pipeline rt w)) = [Stderr (fail_banner m)] /\
             exists pre, fst (pipeline rt w) = pre ++ [Stderr (fail_banner m)]).
Proof.
  intros Hargv. destruct (stderr_of_run Hargv) as [D L]. split.
  - intros u K. rewrite D, K. reflexivity.
  - intros m K. split; [rewrite D, K; reflexivity | exact (L m K)].
Qed.

(** *** From the Intake stage to the Risk stage *)

(** Only a mapping passes the Intake validator. *)
Lemma validate_intake_dict (v : value) (u : unit) :
  validate_intake rt v = Ret u -> exists m, v = PyDict m.
Proof.
  destruct v; try (intros _; eexists; reflexivity); intros H; exfalso; revert H;
    unfold validate_intake, py_not_in; cbn [py_in py_getitem bind];
    repeat match goal with
      | |- context [negb ?b] => destruct b; cbn [negb bind for_each py_getitem]
      end;
    discriminate.
Qed.

Lemma intake_stage_validated (prd_path output_path : pystr) (t : list event) :
  exists out system user,
    fst (run_intake_agent rt w prd_path output_path t) = t ++ out /\
    ((forall v, snd (run_intake_agent rt w prd_path output_path t) <> Ret v) /\
     length (effects out) <= 2 \/
     exists v,
       snd (run_intake_agent rt w prd_path output_path t) = Ret v /\
       validate_intake rt v = Ret tt /\
       effects out = [GatewayCall system user;
                      WriteFile output_path (json_dumps rt true v)]).
Proof.
  unfold run_intake_agent. run_cases.
  all: rewrite <- ?(@app_assoc event); cbn [app fst snd].
  all: do 3 eexists; split; [reflexivity|]; cbn [effects filter console negb length].
  all: first
    [ left; split; [discriminate | repeat constructor]
    | right; eexists; split; [reflexivity|]; split; [|reflexivity];
      match goal with
      | H : validate_intake _ _ = Ret ?u |- _ => destruct u; exact H
      end ].
  Unshelve. all: exact [].
Qed.

Lemma risk_stage_call (m : list (pystr * value)) (output_path : pystr) (t : list event) :
  exists out system,
    fst (run_risk_agent rt w (PyDict m) output_path t) = t ++ out /\
    ((forall v, snd (run_risk_agent rt w (PyDict m) output_path t) <> Ret v) /\
     effects out = [] \/
     exists rest,
       effects out
       = GatewayCall system
           (risk_user_message rt (get_or (lit "project_context") m PyNone)
              (get_or (lit "requirements") m (PyList []))) :: rest).
Proof.
  unfold run_risk_agent. cbn [py_get]. run_cases.
  all: rewrite <- ?(@app_assoc event); cbn [app fst snd].
  all: do 2 eexists; split; [reflexivity|]; cbn [effects filter console negb].
  all: first
    [ left; split; [discriminate | reflexivity]
    | right; eexists; reflexivity ].
  Unshelve. all: exact [].
Qed.

(** X14: the Risk stage is given what the Intake stage validated and
    saved.  In a run that reaches the Risk call, the first three things done
    outside the console are the Intake call, the writing of the dump of a
    mapping the Intake validator accepted at the Intake artifact's path,
    and the Risk call with the user message built from that mapping. *)
Theorem risk_is_given_the_saved_intake (e1 e2 e3 : event) (rest : list event) :
  effects (fst (pipeline rt w)) = e1 :: e2 :: e3 :: rest ->
  exists s1 u1 m s2,
    validate_intake rt (PyDict m) = Ret tt /\
    e1 = GatewayCall s1 u1 /\
    e2 = WriteFile (intake_output_path rt (nth 1 (argv w) []))
           (json_dumps rt true (PyDict m)) /\
    e3 = GatewayCall s2
           (risk_user_message rt (get_or (lit "project_context") m PyNone)
              (get_or (lit "requirements") m (PyList []))).
Proof.
  unfold pipeline, main.
  destruct (argv w) as [|prog [|arg [|x l]]]; cbn [nth];
    try (cbv beta iota zeta delta [rbind print_err print emit]; discriminate).
  cbv beta iota zeta delta [rbind print emit get_openai_client _fail ret].
  destruct (api_key w) as [[|c k]|]; try discriminate.
  cbn [app].
  match goal with
  | |- context [run_intake_agent rt w ?p ?o ?t0] =>
      destruct (intake_stage_validated p o t0)
        as (out1 & s1 & u1 & F1 & [[N1 L1] | [v [R1 [V1 E1]]]]);
      destruct (run_intake_agent rt w p o t0) as [t1 [v1| |]]
  end; cbn [fst snd] in *; subst t1;
    try (exfalso; exact (N1 _ eq_refl)); try discriminate R1.
  - rewrite effects_app. cbn [effects filter console negb app].
    intros H. rewrite H in L1. cbn [length] in L1. lia.
  - rewrite effects_app. cbn [effects filter console negb app].
    intros H. rewrite H in L1. cbn [length] in L1. lia.
  - injection R1 as <-.
    destruct (validate_intake_dict _ V1) as [m ->].
    match goal with
    | |- context [run_risk_agent rt w (PyDict m) ?o ?t0] =>
        destruct (risk_stage_call m o t0) as (out2 & s2 & F2 & [[N2 E2] | [rest2 E2]]);
        destruct (run_risk_agent rt w (PyDict m) o t0) as [t2 [v2| |]]
    end; cbn [fst snd] in *; subst t2;
      try (exfalso; exact (N2 _ eq_refl)).
    + rewrite ?effects_app, E1, E2. cbn [effects filter console negb app].
      intros H. discriminate H.
    + rewrite ?effects_app, E1, E2. cbn [effects filter console negb app].
      intros H. discriminate H.
    + match goal with
      | |- context [run_review_agent rt w ?i ?r ?f ?o ?t0] =>
          destruct (review_stage rt w i r f o t0) as (out3 & s3 & u3 & F3 & _);
          destruct (run_review_agent rt w i r f o t0) as [t3 [[]| |]]
      end; cbn [fst snd] in *; subst t3;
        cbv beta iota zeta delta [print emit]; cbn [fst];
        rewrite ?effects_app, E1, E2; cbn [effects filter console negb app];
        intros H; injection H as <- <- <- _;
        exists s1, u1, m, s2; repeat split; assumption.
    + rewrite ?effects_app, E1, E2. cbn [effects filter console negb app].
      intros H. injection H as <- <- <- _.
      exists s1, u1, m, s2. repeat split; assumption.
    + rewrite ?effects_app, E1, E2. cbn [effects filter console negb app].
      intros H. injection H as <- <- <- _.
      exists s1, u1, m, s2. repeat split; assumption.
Qed.

(** *** What the Risk validator reads *)

(** X15: the Risk validator reads an entry through its five required keys
    and a test case through [tc_id], [type] and [surface] only: mappings
    with the same values under these keys add the same violations, so
    other keys are passed over. *)
Theorem risk_validator_reads_its_keys
    (e1 e2 tc1 tc2 : list (pystr * value)) (errors : list pystr) :
  (forall key, In key entry_fields -> dict_lookup key e1 = dict_lookup key e2) ->
  (forall key, In key [lit "tc_id"; lit "type"; lit "surface"] ->
               dict_lookup key tc1 = dict_lookup key tc2) ->
  check_entry rt (PyDict e1) errors = check_entry rt (PyDict e2) errors /\
  check_test_case rt (PyDict tc1) errors = check_test_case rt (PyDict tc2) errors.
Proof.
  intros HE HT. split.
  - pose proof (HE (lit "req_id") ltac:(cbn; auto)) as H1.
    pose proof (HE (lit "risk") ltac:(cbn; auto)) as H2.
    pose proof (HE (lit "severity") ltac:(cbn; auto)) as H3.
    pose proof (HE (lit "severity_locked") ltac:(cbn; auto 6)) as H4.
    pose proof (HE (lit "test_cases") ltac:(cbn; auto 7)) as H5.
    unfold check_entry, py_not_in. cbn [py_get py_in bind for_each].
    unfold get_or, dict_has. rewrite H1, H2, H3, H4, H5. reflexivity.
  - pose proof (HT (lit "tc_id") ltac:(cbn; auto)) as H1.
    pose proof (HT (lit "type") ltac:(cbn; auto)) as H2.
    pose proof (HT (lit "surface") ltac:(cbn; auto)) as H3.
    unfold check_test_case, check_enum, py_not_in.
    cbn [py_get py_in py_getitem bind].
    unfold get_or, dict_has. rewrite H1, H2, H3. reflexivity.
Qed.

End MoreRuns.

(** *** The extras on concrete worlds *)

Lemma missing_credential_stops_the_run_witness :
  snd (pipeline Reference.rt Cases.no_credential)
  = Fail (lit "OPENAI_API_KEY is not set. Add it to your .env file.") /\
  effects (fst (pipeline Reference.rt Cases.no_credential)) = [] /\
  filter is_stderr (fst (pipeline Reference.rt Cases.no_credential))
  = [Stderr (fail_banner (lit "OPENAI_API_KEY is not set. Add it to your .env file."))].
Proof.
  apply (@missing_credential_stops_the_run Reference.rt Cases.no_credential
           (lit "run_pipeline.py") Demo.prd_path).
  - reflexivity.
  - left; reflexivity.
Defined.

Lemma wrong_command_line_prints_usage_witness :
  pipeline Reference.rt Cases.no_argument = (usage_lines, Raise (SystemExit 1)).
Proof.
  apply wrong_command_line_prints_usage. cbn. discriminate.
Defined.

Lemma missing_prd_stops_the_run_witness :
  snd (pipeline Reference.rt Cases.no_prd)
  = Fail (lit "PRD file not found: " ++ lit "sample_input/missing.md") /\
  effects (fst (pipeline Reference.rt Cases.no_prd)) = [].
Proof.
  apply (@missing_prd_stops_the_run Reference.rt Cases.no_prd
           (lit "run_pipeline.py") (lit "sample_input/missing.md") (lit "sk-test")
           (lit "Parse the PRD."));
    first [reflexivity | discriminate].
Defined.

Lemma failed_call_is_not_retried_witness :
  (snd (run_intake_agent Reference.rt Cases.backend_down Demo.prd_path
          (lit "intake_output.json") [])
   = Fail (api_call_failed (lit "Intake Agent") (lit "Connection error.")) /\
   effects (fst (run_intake_agent Reference.rt Cases.backend_down Demo.prd_path
                   (lit "intake_output.json") []))
   = effects [] ++ [GatewayCall (lit "Parse the PRD.") (intake_user_message (lit "# PRD"))]) /\
  snd (run_risk_agent Reference.rt Cases.backend_down (PyDict []) (lit "risk_output.json") [])
  = Fail (api_call_failed (lit "Risk Agent") (lit "Connection error.")) /\
  snd (run_review_agent Reference.rt Cases.backend_down (PyDict []) (PyList [])
         (lit "prd") (lit "test_plan.md") [])
  = Fail (api_call_failed (lit "Review Agent") (lit "Connection error.")).
Proof.
  destruct (failed_call_is_not_retried Reference.rt Cases.backend_down) as [H1 [H2 H3]].
  split; [|split].
  - apply H1; reflexivity.
  - apply (H2 [] (lit "risk_output.json") [] (lit "Assess the risks.")
             (lit "Connection error.")); reflexivity.
  - apply (H3 (PyDict []) (PyList []) (lit "prd") (lit "test_plan.md") []
             (lit "Render the plan.") (lit "Connection error.")); reflexivity.
Defined.

Lemma undecodable_reply_stops_the_stage_witness :
  snd (run_intake_agent Reference.rt Cases.chatty Demo.prd_path
         (lit "intake_output.json") [])
  = Fail (not_parsed (lit "Intake Agent") Reference.decode_error
            (lit "Sure! Here is the JSON you asked for.")) /\
  snd (run_risk_agent Reference.rt Cases.chatty (PyDict []) (lit "risk_output.json") [])
  = Fail (not_parsed (lit "Risk Agent") Reference.decode_error
            (lit "Sure! Here is the JSON you asked for.")).
Proof.
  destruct (undecodable_reply_stops_the_stage Reference.rt Cases.chatty) as [H1 H2].
  split.
  - apply (H1 Demo.prd_path (lit "intake_output.json") [] (lit "Parse the PRD.")
             (lit "# PRD") Reference.decode_error
             (Some (lit "Sure! Here is the JSON you asked for.")));
      reflexivity.
  - apply (H2 [] (lit "risk_output.json") [] (lit "Assess the risks.")
             Reference.decode_error
             (Some (lit "Sure! Here is the JSON you asked for.")));
      reflexivity.
Defined.

Lemma only_validated_output_is_written_witness :
  exists out,
    fst (run_intake_agent Reference.rt Demo.complete Demo.prd_path
           (lit "intake_output.json") []) = [] ++ out /\
    forall p c, In (WriteFile p c) out ->
                p = lit "intake_output.json" /\
                exists v, c = json_dumps Reference.rt true v /\
                          validate_intake Reference.rt v = Ret tt.
Proof.
  exact (proj1 (only_validated_output_is_written Reference.rt Demo.complete)
           Demo.prd_path (lit "intake_output.json") []).
Defined.

Lemma blank_review_reply_fails_witness :
  snd (run_review_agent Reference.rt Cases.backend_silent (PyDict []) (PyList [])
         (lit "prd") (lit "test_plan.md") [])
  = Fail all_sections_missing /\
  effects (fst (run_review_agent Reference.rt Cases.backend_silent (PyDict []) (PyList [])
                  (lit "prd") (lit "test_plan.md") []))
  = effects [] ++
    [GatewayCall (lit "Render the plan.")
       (review_user_message Reference.rt Cases.backend_silent (PyDict []) (PyList [])
          (lit "prd"))].
Proof.
  apply (blank_review_reply_fails Reference.rt Cases.backend_silent (PyDict []) (PyList [])
           (lit "prd") (lit "test_plan.md") [] (system := lit "Render the plan.")
           (reply := None));
    reflexivity.
Defined.

Lemma one_diagnostic_and_it_is_last_witness :
  filter is_stderr (fst (pipeline Reference.rt Cases.backend_down))
  = [Stderr (fail_banner (api_call_failed (lit "Intake Agent") (lit "Connection error.")))] /\
  exists pre, fst (pipeline Reference.rt Cases.backend_down)
              = pre ++ [Stderr (fail_banner (api_call_failed (lit "Intake Agent") (lit "Connection error.")))].
Proof.
  apply (proj2 (@one_diagnostic_and_it_is_last Reference.rt Cases.backend_down
                  (lit "run_pipeline.py") Demo.prd_path eq_refl)).
  vm_compute. reflexivity.
Defined.

Lemma risk_is_given_the_saved_intake_witness :
  let done := effects (fst (pipeline Reference.rt Demo.complete)) in
  exists s1 u1 m s2,
    validate_intake Reference.rt (PyDict m) = Ret tt /\
    nth 0 done (Stdout []) = GatewayCall s1 u1 /\
    nth 1 done (Stdout [])
    = WriteFile (intake_output_path Reference.rt Demo.prd_path)
        (json_dumps Reference.rt true (PyDict m)) /\
    nth 2 done (Stdout [])
    = GatewayCall s2
        (risk_user_message Reference.rt (get_or (lit "project_context") m PyNone)
           (get_or (lit "requirements") m (PyList []))).
Proof.
  intros done.
  apply (@risk_is_given_the_saved_intake Reference.rt Demo.complete
           (nth 0 done (Stdout [])) (nth 1 done (Stdout [])) (nth 2 done (Stdout []))
           (skipn 3 done)).
  vm_compute. reflexivity.
Defined.

Lemma risk_validator_reads_its_keys_witness :
  check_test_case Reference.rt
    (PyDict [(lit "note", PyStr (lit "n")); (lit "type", PyStr (lit "bogus"))]) []
  = check_test_case Reference.rt (PyDict [(lit "type", PyStr (lit "bogus"))]) [].
Proof.
  refine (proj2 (risk_validator_reads_its_keys Reference.rt [] []
                   [(lit "note", PyStr (lit "n")); (lit "type", PyStr (lit "bogus"))]
                   [(lit "type", PyStr (lit "bogus"))] [] _ _)).
  - reflexivity.
  - intros key [<- | [<- | [<- | []]]]; reflexivity.
Defined.

(** C10 as stated fails: the sequence it names, U+00E2 U+20AC U+201D (the
    bytes of the em dash read as Windows-1252), is not the one the code
    replaces.  A generated text that holds it is validated and saved with
    the sequence in place, no em dash put for it. *)
Lemma cp1252_dash_is_left_in_place :
  review_output cp1252_dash = cp1252_dash /\
  review_output cp1252_dash <> em_dash /\
  snd (run_review_agent Reference.rt Cases.backend_cp1252 (PyDict []) (PyList [])
         (lit "prd") (lit "test_plan.md") []) = Ret tt /\
  effects (fst (run_review_agent Reference.rt Cases.backend_cp1252 (PyDict []) (PyList [])
                  (lit "prd") (lit "test_plan.md") []))
  = [GatewayCall (lit "Render the plan.")
       (review_user_message Reference.rt Cases.backend_cp1252 (PyDict []) (PyList [])
          (lit "prd"));
     WriteFile (lit "test_plan.md") Cases.cp1252_review] /\
  occurs cp1252_dash Cases.cp1252_review /\
  ~ occurs em_dash Cases.cp1252_review.
Proof.
  split; [reflexivity|]. split; [discriminate|].
  split; [vm_compute; reflexivity|]. split; [vm_compute; reflexivity|].
  split.
  - apply str_contains_iff. reflexivity.
  - apply str_contains_false. reflexivity.
Qed.

